(** * The SMTP provider of [notifiers] ([notifiers/providers/email.py])

    A shallow embedding of the [SMTP] provider class: request normalization
    ([_prepare_data]), payload construction ([_build_email],
    [_add_attachments]), the session manager ([_connect_to_server],
    [_get_configuration]) and the dispatch operation ([_send_notification]).

    Python dictionaries are finite maps from strings to Python values,
    the provider instance is a record threaded through a state-and-exception
    monad, and the SMTP server, the file system and the [email] library are
    an arbitrary [world] that answers every call either normally or with an
    exception. *)

From Stdlib Require Import ZArith String Ascii List Bool Lia DecimalString.
From stdpp Require Import base option gmap strings list.

Local Open Scope string_scope.
Local Open Scope Z_scope.
Local Open Scope list_scope.

(** ** Python values *)

#[warnings="-register-all"]
Inductive pyval : Type :=
| VNone
| VBool (b : bool)
| VInt (z : Z)
| VStr (s : string)
| VList (l : list pyval).

(** A request is a [dict] with string keys. *)
Abbreviation dict := (gmap string pyval).

(** [bool(v)]: the truth value Python gives to [v] in a condition. *)
Definition truthy (v : pyval) : bool :=
  match v with
  | VNone => false
  | VBool b => b
  | VInt z => negb (z =? 0)
  | VStr s => negb (String.eqb s "")
  | VList l => match l with [] => false | _ :: _ => true end
  end.

(** [v1 == v2]. A [bool] is an [int] ([True == 1]); values of unrelated
    types are unequal. *)
Fixpoint py_eqb (v1 v2 : pyval) {struct v1} : bool :=
  match v1, v2 with
  | VNone, VNone => true
  | VBool b1, VBool b2 => Bool.eqb b1 b2
  | VBool b1, VInt z2 => Z.b2z b1 =? z2
  | VInt z1, VBool b2 => z1 =? Z.b2z b2
  | VInt z1, VInt z2 => z1 =? z2
  | VStr s1, VStr s2 => String.eqb s1 s2
  | VList l1, VList l2 =>
      (fix list_eqb (l1 l2 : list pyval) {struct l1} : bool :=
         match l1, l2 with
         | [], [] => true
         | x1 :: l1', x2 :: l2' => py_eqb x1 x2 && list_eqb l1' l2'
         | _, _ => false
         end) l1 l2
  | _, _ => false
  end.

(** [data.get(k)]: [None] when the key is absent. *)
Definition dict_get (data : dict) (k : string) : pyval :=
  default VNone (data !! k).

(** ** Exceptions *)

(** The classes that the code and its collaborators ([smtplib], [socket],
    [pathlib], [dict]) raise, with Python 3's class tree: every [smtplib]
    exception derives from [OSError]. *)
Inductive exc_class : Type :=
| BaseException | Exception
| OSError
| SMTPException | SMTPServerDisconnected | SMTPResponseException
| SMTPSenderRefused | SMTPAuthenticationError | SMTPRecipientsRefused
| SMTPDataError | SMTPConnectError | SMTPHeloError | SMTPNotSupportedError
| FileNotFoundError | PermissionError | ConnectionRefusedError | TimeoutError
| LookupError | KeyError | TypeError | ValueError | AttributeError.

(** [socket.error] and [IOError] are aliases of [OSError]. *)
Definition socket_error : exc_class := OSError.
Definition IOError : exc_class := OSError.

Definition exc_class_eqb (c1 c2 : exc_class) : bool :=
  match c1, c2 with
  | BaseException, BaseException | Exception, Exception | OSError, OSError
  | SMTPException, SMTPException
  | SMTPServerDisconnected, SMTPServerDisconnected
  | SMTPResponseException, SMTPResponseException
  | SMTPSenderRefused, SMTPSenderRefused
  | SMTPAuthenticationError, SMTPAuthenticationError
  | SMTPRecipientsRefused, SMTPRecipientsRefused
  | SMTPDataError, SMTPDataError | SMTPConnectError, SMTPConnectError
  | SMTPHeloError, SMTPHeloError
  | SMTPNotSupportedError, SMTPNotSupportedError
  | FileNotFoundError, FileNotFoundError | PermissionError, PermissionError
  | ConnectionRefusedError, ConnectionRefusedError
  | TimeoutError, TimeoutError
  | LookupError, LookupError | KeyError, KeyError | TypeError, TypeError
  | ValueError, ValueError | AttributeError, AttributeError => true
  | _, _ => false
  end.

(** The direct base class. *)
Definition base_class (c : exc_class) : option exc_class :=
  match c with
  | BaseException => None
  | Exception => Some BaseException
  | OSError | LookupError | TypeError | ValueError | AttributeError =>
      Some Exception
  | SMTPException | FileNotFoundError | PermissionError
  | ConnectionRefusedError | TimeoutError => Some OSError
  | SMTPServerDisconnected | SMTPResponseException | SMTPRecipientsRefused
  | SMTPNotSupportedError => Some SMTPException
  | SMTPSenderRefused | SMTPAuthenticationError | SMTPDataError
  | SMTPConnectError | SMTPHeloError => Some SMTPResponseException
  | KeyError => Some LookupError
  end.

Fixpoint issubclass_upto (depth : nat) (c target : exc_class) : bool :=
  exc_class_eqb c target ||
  match depth, base_class c with
  | S d, Some b => issubclass_upto d b target
  | _, _ => false
  end.

(** The class tree is five levels deep. *)
Definition issubclass (c target : exc_class) : bool :=
  issubclass_upto 5 c target.

(** A raised exception: its class and [str(e)]. *)
Record exn : Type := mk_exn { exn_class : exc_class; exn_str : string }.

(** [isinstance(e, (c1, ..., cn))]. *)
Definition isinstance (e : exn) (classes : list exc_class) : bool :=
  existsb (issubclass (exn_class e)) classes.

(** [KeyError(k)]; [str] of it is the quoted key. *)
Definition key_error (k : string) : exn :=
  mk_exn KeyError (String.append "'" (String.append k "'")).

(** ** Computations that may raise *)

Inductive result (A : Type) : Type :=
| Ok (a : A)
| Raise (e : exn).
Arguments Ok {A} a.
Arguments Raise {A} e.

(** [data[k]] raises [KeyError] on an absent key. *)
Definition getitem (data : dict) (k : string) : result pyval :=
  match data !! k with
  | Some v => Ok v
  | None => Raise (key_error k)
  end.

(** ** Request normalization *)

(** Modelled from the spec: [list_to_commas] of [notifiers.utils.schema.helpers]
    is not part of the sources at hand.  The normalizer joins a sequence of
    destinations into one comma-delimited scalar without reordering
    ([",".join]); joining a non-string element is a [TypeError]. *)
Fixpoint list_to_commas (l : list pyval) : result string :=
  match l with
  | [] => Ok ""
  | VStr s :: l' =>
      match l' with
      | [] => Ok s
      | _ :: _ =>
          match list_to_commas l' with
          | Ok rest => Ok (String.append s (String.append "," rest))
          | Raise e => Raise e
          end
      end
  | _ :: _ => Raise (mk_exn TypeError "sequence item: expected str instance")
  end.

(** [SMTP._prepare_data]. *)
Definition _prepare_data (data : dict) : result dict :=
  match getitem data "to" with
  | Raise e => Raise e
  | Ok to =>
      let collapsed :=
        match to with
        | VList l =>
            match list_to_commas l with
            | Ok s => Ok (<["to" := VStr s]> data)
            | Raise e => Raise e
            end
        | _ => Ok data
        end in
      match collapsed with
      | Raise e => Raise e
      | Ok data =>
          (* A workaround since `from` is a reserved word *)
          if truthy (dict_get data "from_")
          then Ok (<["from" := dict_get data "from_"]> (delete "from_" data))
          else Ok data
      end
  end.

(** ** Session identity *)

(** [SMTP._get_configuration], a static method. *)
Definition _get_configuration (data : dict) : result (pyval * pyval * pyval) :=
  match getitem data "host" with
  | Raise e => Raise e
  | Ok host =>
      match getitem data "port" with
      | Raise e => Raise e
      | Ok port => Ok (host, port, dict_get data "username")
      end
  end.

(** [c1 == c2] on two such triples. *)
Definition configuration_eqb (c1 c2 : pyval * pyval * pyval) : bool :=
  let '(h1, p1, u1) := c1 in
  let '(h2, p2, u2) := c2 in
  py_eqb h1 h2 && py_eqb p1 p2 && py_eqb u1 u2.

(** ** The provider instance and its collaborators *)

(** An [smtplib] client object: [smtplib.SMTP_SSL()] when [client_ssl],
    [smtplib.SMTP()] otherwise.  [client_id] tells the objects apart. *)
Record client : Type := mk_client { client_id : nat; client_ssl : bool }.

(** The payload built by [_build_email] and [_add_attachments]. *)
Record EmailMessage : Type := mk_email {
  email_To : string;
  email_From : string;
  email_Subject : string;
  email_Date : string;
  email_subtype : string;
  email_body : string;
  email_parts : list (string * string)  (* filename, content *)
}.

(** Calls to the collaborators: the methods of the [smtplib] client and
    [Path(p).read_bytes()]. *)
Inductive call : Type :=
| Connect (c : client) (host port : pyval)
| Ehlo (c : client)
| Starttls (c : client)
| Login (c : client) (username password : pyval)
| SendMessage (c : client) (email : EmailMessage)
| ReadBytes (path : string).

(** A call together with the exception it raised, if any. *)
Record event : Type := mk_event { ev_call : call; ev_exn : option exn }.

(** The instance attributes set by [__init__]. *)
Record SMTP : Type := mk_SMTP {
  smtp_server : option client;
  configuration : option (pyval * pyval * pyval)
}.

Record state : Type := mk_state {
  self : SMTP;
  created : nat;        (* client objects constructed so far *)
  trace : list event    (* collaborator calls so far, oldest first *)
}.

(** The environment: what each collaborator call does, given the calls made
    before it, the content of the files, the clock, and what the [email]
    library does with a value given as a header ([email[name] = value]) or
    as the body ([email.add_alternative(value, subtype=...)]): the text it
    keeps, or the exception it raises. *)
Record world : Type := mk_world {
  outcome : list event -> call -> option exn;
  file_bytes : string -> string;
  formatdate : string;
  header : string -> pyval -> result string;
  alternative : pyval -> string -> result string
}.

(** The result of [create_response]. *)
Record Response : Type := mk_Response {
  rsp_ok : bool;
  rsp_data : dict;
  rsp_errors : option (list string)
}.

(** Modelled from the spec: [Provider.create_response] and [Response] live in
    [notifiers.core], which is not part of the sources at hand.  A Response
    carries the request data, a success flag and the optional error list;
    the flag is set exactly when there are no errors. *)
Definition create_response (data : dict) (errors : option (list string))
  : Response :=
  mk_Response
    (match errors with None | Some [] => true | Some (_ :: _) => false end)
    data errors.

(** [SMTP.__init__]. *)
Definition __init__ : SMTP := mk_SMTP None None.

Definition init_state : state := mk_state __init__ 0 [].

(** ** The state-and-exception monad *)

Definition M (A : Type) : Type := state -> result A * state.

Definition ret {A} (a : A) : M A := fun st => (Ok a, st).

Definition raise {A} (e : exn) : M A := fun st => (Raise e, st).

Definition bind {A B} (m : M A) (k : A -> M B) : M B :=
  fun st =>
    match m st with
    | (Ok a, st') => k a st'
    | (Raise e, st') => (Raise e, st')
    end.

Definition lift {A} (r : result A) : M A := fun st => (r, st).

Declare Scope py_scope.
Delimit Scope py_scope with py.
Notation "x <~ m ;; k" := (bind m (fun x => k))
  (at level 100, m at next level, right associativity) : py_scope.
Notation "m ;;; k" := (bind m (fun _ => k))
  (at level 100, right associativity) : py_scope.
Local Open Scope py_scope.

Definition get_self : M SMTP := fun st => (Ok (self st), st).

Definition set_smtp_server (c : client) : M unit :=
  fun st =>
    (Ok tt,
     mk_state (mk_SMTP (Some c) (configuration (self st)))
              (created st) (trace st)).

Definition set_configuration (cfg : pyval * pyval * pyval) : M unit :=
  fun st =>
    (Ok tt,
     mk_state (mk_SMTP (smtp_server (self st)) (Some cfg))
              (created st) (trace st)).

(** [self.smtp_server.<method>]: an attribute of [None] does not exist. *)
Definition the_smtp_server : M client :=
  fun st =>
    match smtp_server (self st) with
    | Some c => (Ok c, st)
    | None =>
        (Raise (mk_exn AttributeError "'NoneType' object has no attribute"),
         st)
    end.

(** Constructing a client object. *)
Definition new_client (ssl : bool) : M client :=
  fun st =>
    (Ok (mk_client (created st) ssl),
     mk_state (self st) (S (created st)) (trace st)).

Section Provider.

Variable w : world.

(** A collaborator call: it is recorded, and raises when the world says so. *)
Definition do_call (c : call) : M unit :=
  fun st =>
    let o := outcome w (trace st) c in
    let st' := mk_state (self st) (created st) (trace st ++ [mk_event c o]) in
    (match o with None => Ok tt | Some e => Raise e end, st').

(** [Path(attachment)]: a path has to be a string, anything else is a
    [TypeError]. *)
Definition as_str (v : pyval) : M string :=
  match v with
  | VStr s => ret s
  | _ => raise (mk_exn TypeError "expected str")
  end.

(** [SMTP._build_email].  Whether [EmailMessage] takes a value as a header
    or as the body, and what it keeps of it, is decided by the [email]
    library: the world says.  The [Date] header is the text of
    [formatdate]. *)
Definition _build_email (data : dict) : M EmailMessage :=
  to <~ lift (getitem data "to") ;;
  to <~ lift (header w "To" to) ;;
  from <~ lift (getitem data "from") ;;
  from <~ lift (header w "From" from) ;;
  subject <~ lift (getitem data "subject") ;;
  subject <~ lift (header w "Subject" subject) ;;
  html <~ lift (getitem data "html") ;;
  let content_type := if truthy html then "html" else "plain" in
  message <~ lift (getitem data "message") ;;
  message <~ lift (alternative w message content_type) ;;
  ret (mk_email to from subject (formatdate w) content_type message []).

(** What [for attachment in v] iterates over: the elements of a list, the
    characters of a string. *)
Definition iterate (v : pyval) : M (list pyval) :=
  match v with
  | VList l => ret l
  | VStr s =>
      ret (map (fun a => VStr (String a EmptyString))
             (list_ascii_of_string s))
  | _ => raise (mk_exn TypeError "object is not iterable")
  end.

(** The loop of [_add_attachments]. *)
Fixpoint attach_all (attachments : list pyval) (email : EmailMessage)
  : M EmailMessage :=
  match attachments with
  | [] => ret email
  | attachment :: rest =>
      path <~ as_str attachment ;;
      (do_call (ReadBytes path) ;;;
       let file := file_bytes w path in
       attach_all rest
         (mk_email (email_To email) (email_From email) (email_Subject email)
            (email_Date email) (email_subtype email) (email_body email)
            (email_parts email ++ [(path, file)])))
  end.

(** [SMTP._add_attachments]. *)
Definition _add_attachments (data : dict) (email : EmailMessage)
  : M EmailMessage :=
  attachments <~ lift (getitem data "attachments") ;;
  attachments <~ iterate attachments ;;
  attach_all attachments email.

(** [SMTP._connect_to_server].  Choosing the client class and instantiating
    it are one step here ([new_client], then the assignment to
    [self.smtp_server]); [set_debuglevel] and the [log.debug] calls change
    nothing that is observed. *)
Definition _connect_to_server (data : dict) : M unit :=
  ssl <~ lift (getitem data "ssl") ;;
  server <~ new_client (truthy ssl) ;;
  (set_smtp_server server ;;;
   host <~ lift (getitem data "host") ;;
   port <~ lift (getitem data "port") ;;
   (do_call (Connect server host port) ;;;
    cfg <~ lift (_get_configuration data) ;;
    (set_configuration cfg ;;;
     tls <~ lift (getitem data "tls") ;;
     upgrade <~ (if truthy tls
                 then ssl <~ lift (getitem data "ssl") ;; ret (negb (truthy ssl))
                 else ret false) ;;
     ((if upgrade
       then do_call (Ehlo server) ;;; do_call (Starttls server)
       else ret tt) ;;;
      if truthy (dict_get data "username")
      then
        username <~ lift (getitem data "username") ;;
        password <~ lift (getitem data "password") ;;
        do_call (Login server username password)
      else ret tt)))).

(** The condition of [_send_notification] under which the session is
    re-established. *)
Definition must_connect (s : SMTP) (cfg : pyval * pyval * pyval) : bool :=
  match configuration s with
  | None => true                 (* not self.configuration *)
  | Some stored =>
      match smtp_server s with
      | None => true             (* not self.smtp_server *)
      | Some _ => negb (configuration_eqb stored cfg)   (* != *)
      end
  end.

(** The body of the [try] statement of [_send_notification]. *)
Definition try_body (data : dict) : M unit :=
  cfg <~ lift (_get_configuration data) ;;
  s <~ get_self ;;
  ((if must_connect s cfg then _connect_to_server data else ret tt) ;;;
   email <~ _build_email data ;;
   email <~ (if truthy (dict_get data "attachments")
             then _add_attachments data email
             else ret email) ;;
   server <~ the_smtp_server ;;
   do_call (SendMessage server email)).

(** The classes named by the [except] clause. *)
Definition handled : list exc_class :=
  [SMTPServerDisconnected; SMTPSenderRefused; socket_error; OSError; IOError;
   SMTPAuthenticationError].

(** [SMTP._send_notification]. *)
Definition _send_notification (data : dict) : M Response :=
  fun st =>
    match try_body data st with
    | (Ok _, st') => (Ok (create_response data None), st')
    | (Raise e, st') =>
        if isinstance e handled
        then (Ok (create_response data (Some [exn_str e])), st')
        else (Raise e, st')
    end.

End Provider.

(** ** Observations on a run *)

(** The collaborator calls made between two states. *)
Definition emitted (st st' : state) : list event :=
  drop (length (trace st)) (trace st').

(** Calls that establish a session: connect, upgrade, authenticate. *)
Definition is_session_call (c : call) : bool :=
  match c with
  | Connect _ _ _ | Ehlo _ | Starttls _ | Login _ _ _ => true
  | SendMessage _ _ | ReadBytes _ => false
  end.

(** Calls on the transport, as opposed to the file system. *)
Definition is_transport_call (c : call) : bool :=
  match c with
  | ReadBytes _ => false
  | _ => true
  end.

Definition is_connect (c : call) : bool :=
  match c with Connect _ _ _ => true | _ => false end.

Definition is_login (c : call) : bool :=
  match c with Login _ _ _ => true | _ => false end.

Definition is_upgrade (c : call) : bool :=
  match c with Ehlo _ | Starttls _ => true | _ => false end.

Definition is_send (c : call) : bool :=
  match c with SendMessage _ _ => true | _ => false end.

(** The client object a transport call is made on. *)
Definition call_client (c : call) : option client :=
  match c with
  | Connect cl _ _ | Ehlo cl | Starttls cl | Login cl _ _
  | SendMessage cl _ => Some cl
  | ReadBytes _ => None
  end.

(** How many of the events are calls of the given kind. *)
Definition count_calls (p : call -> bool) (evs : list event) : nat :=
  length (List.filter (fun ev => p (ev_call ev)) evs).

(** Two requests have the same Session Identity. *)
Definition same_identity (d1 d2 : dict) : bool :=
  match _get_configuration d1, _get_configuration d2 with
  | Ok c1, Ok c2 => configuration_eqb c1 c2
  | _, _ => false
  end.


Definition is_str (v : pyval) : bool :=
  match v with VStr _ => true | _ => false end.

(** A request as the pipeline hands it to [_send_notification]: defaults
    merged, schema satisfied, normalized. *)
Definition well_formed (data : dict) : bool :=
  is_str (dict_get data "message") && is_str (dict_get data "to") &&
  is_str (dict_get data "from") && is_str (dict_get data "subject") &&
  bool_decide (is_Some (data !! "host")) &&
  bool_decide (is_Some (data !! "port")) &&
  bool_decide (is_Some (data !! "tls")) &&
  bool_decide (is_Some (data !! "ssl")) &&
  bool_decide (is_Some (data !! "html")) &&
  (negb (truthy (dict_get data "username")) ||
   bool_decide (is_Some (data !! "password"))) &&
  match dict_get data "attachments" with
  | VNone | VStr _ => true
  | VList l => forallb is_str l
  | _ => false
  end.

Definition is_ok {A} (r : result A) : bool :=
  match r with Ok _ => true | Raise _ => false end.

(** The subtype [_build_email] gives the body. *)
Definition subtype_of (data : dict) : string :=
  if truthy (dict_get data "html") then "html" else "plain".

(** The [email] library takes the headers and the body of the request. *)
Definition accepted (w : world) (data : dict) : bool :=
  is_ok (header w "To" (dict_get data "to")) &&
  is_ok (header w "From" (dict_get data "from")) &&
  is_ok (header w "Subject" (dict_get data "subject")) &&
  is_ok (alternative w (dict_get data "message") (subtype_of data)).

(** The [email] library refuses a header or the body of the request with
    the exception [e]. *)
Definition refused (w : world) (data : dict) (e : exn) : Prop :=
  header w "To" (dict_get data "to") = Raise e \/
  header w "From" (dict_get data "from") = Raise e \/
  header w "Subject" (dict_get data "subject") = Raise e \/
  alternative w (dict_get data "message") (subtype_of data) = Raise e.

(** The keys [_connect_to_server] reads are present. *)
Definition connect_keys (data : dict) : bool :=
  bool_decide (is_Some (data !! "ssl")) &&
  bool_decide (is_Some (data !! "host")) &&
  bool_decide (is_Some (data !! "port")) &&
  bool_decide (is_Some (data !! "tls")) &&
  (negb (truthy (dict_get data "username")) ||
   bool_decide (is_Some (data !! "password"))).

(** The file at [path] is missing or unreadable: reading it always raises. *)
Definition unreadable (w : world) (path : string) : Prop :=
  forall tr, is_Some (outcome w tr (ReadBytes path)).

(** The provider holds a session that serves the request [data]: the
    condition of [_send_notification] does not ask for a new connection. *)
Definition connected_for (s : SMTP) (data : dict) : bool :=
  match _get_configuration data with
  | Ok cfg => negb (must_connect s cfg)
  | Raise _ => false
  end.

(** Sequencing of pure computations that may raise. *)
Definition and_then {A B} (r : result A) (f : A -> result B) : result B :=
  match r with
  | Ok a => f a
  | Raise e => Raise e
  end.

(** The destination is a scalar or a sequence of strings. *)
Definition to_joinable (data : dict) : bool :=
  match data !! "to" with
  | Some (VList l) => forallb is_str l
  | Some _ => true
  | None => false
  end.

(** What [_send_notification] does once the session is there: build the
    payload, attach the files, transmit.  [try_body] ends with it. *)
Definition deliver (w : world) (data : dict) : M unit :=
  (email <~ _build_email w data ;;
   email <~ (if truthy (dict_get data "attachments")
             then _add_attachments w data email
             else ret email) ;;
   server <~ the_smtp_server ;;
   do_call w (SendMessage server email))%py.

(** ** Sample requests and worlds *)

(** The spec's scenario [{message, to, username, password}] after the
    defaults are merged. *)
Definition merged_request : dict :=
  list_to_map
    [("message", VStr "hi"); ("to", VStr "a@x.com");
     ("username", VStr "u"); ("password", VStr "p");
     ("subject", VStr "New email from 'notifiers'!");
     ("from", VStr "me@localhost"); ("host", VStr "localhost");
     ("port", VInt 25); ("tls", VBool false); ("ssl", VBool false);
     ("html", VBool false)].

(** The same request sent through another host. *)
Definition other_host_request : dict :=
  <["host" := VStr "mail.example.org"]> merged_request.

(** The same request with opportunistic encryption. *)
Definition tls_request : dict := <["tls" := VBool true]> merged_request.


(** A request with both the canonical field and its alias. *)
Definition alias_request : dict :=
  list_to_map
    [("to", VList [VStr "a@x.com"; VStr "b@x.com"]);
     ("from", VStr "b@x.com"); ("from_", VStr "c@x.com")].

(** The [email] library of the sample worlds follows [EmailMessage] with
    its default policy.  The theorems take the library as the world gives
    it; the sample worlds need one. *)

(** The line boundaries of [str.splitlines] among the first 256 code
    points. *)
Definition is_line_boundary (a : ascii) : bool :=
  existsb (N.eqb (N_of_ascii a)) [10; 11; 12; 13; 28; 29; 30; 133]%N.

(** [len(s.splitlines()) > 1]: a line boundary with text after it, where a
    carriage return and the line feed after it are one boundary. *)
Fixpoint multi_line (s : string) : bool :=
  match s with
  | EmptyString => false
  | String a rest =>
      (is_line_boundary a && negb (String.eqb rest "") &&
       negb (Ascii.eqb a "013" && String.eqb rest (String "010" ""))) ||
      multi_line rest
  end.

(** [repr(v)]; a string is put in single quotes as it is. *)
Fixpoint py_repr (v : pyval) : string :=
  match v with
  | VNone => "None"
  | VBool true => "True"
  | VBool false => "False"
  | VInt z => NilZero.string_of_int (Z.to_int z)
  | VStr s => String.append "'" (String.append s "'")
  | VList l =>
      String.append "["
        (String.append
           (String.concat ", "
              ((fix go (l : list pyval) : list string :=
                  match l with
                  | [] => []
                  | x :: l' => py_repr x :: go l'
                  end) l))
           "]")
  end.

(** [str(v)]. *)
Definition py_str (v : pyval) : string :=
  match v with
  | VStr s => s
  | _ => py_repr v
  end.

(** What the parser of an unstructured header does with a value that is
    not a string: nothing when it is falsy, else it fails on the first
    operation a string would support. *)
Definition unstructured (v : pyval) : result string :=
  match v with
  | VStr s => Ok s
  | VNone | VBool false | VList [] => Ok ""
  | VBool true => Raise (mk_exn TypeError "'bool' object is not subscriptable")
  | VInt z =>
      if (z =? 0)%Z then Ok ""
      else Raise (mk_exn TypeError "'int' object is not subscriptable")
  | VList (VList _ :: _) => Raise (mk_exn TypeError "unhashable type: 'list'")
  | VList (VStr s :: _) =>
      if String.eqb s " " || String.eqb s (String "009" "")
      then Raise (mk_exn AttributeError
                    "'list' object has no attribute 'lstrip'")
      else Raise (mk_exn AttributeError
                    "'list' object has no attribute 'startswith'")
  | VList (_ :: _) =>
      Raise (mk_exn AttributeError
               "'list' object has no attribute 'startswith'")
  end.

(** [email[name] = v] for the headers [To], [From] and [Subject]: a string
    of more than one line is refused, as [header_store_parse] does, and any
    other string is kept as it was given (the library renders an address
    header from its parse, which for a plain address is the string itself);
    an address header renders what is not a string with [str], item by
    item. *)
Definition sample_header (name : string) (v : pyval) : result string :=
  match v with
  | VStr s =>
      if multi_line s
      then Raise (mk_exn ValueError
                    "Header values may not contain linefeed or carriage return characters")
      else Ok s
  | VList l =>
      if String.eqb name "Subject" then unstructured v
      else Ok (String.concat ", " (map py_str l))
  | _ =>
      if String.eqb name "Subject" then unstructured v else Ok (py_str v)
  end.

(** [email.add_alternative(v, subtype=...)]: the content manager has a
    handler for strings only. *)
Definition sample_alternative (v : pyval) (subtype : string)
  : result string :=
  match v with
  | VStr s => Ok s
  | VNone => Raise (key_error "builtins.NoneType")
  | VBool _ => Raise (key_error "builtins.bool")
  | VInt _ => Raise (key_error "builtins.int")
  | VList _ => Raise (key_error "builtins.list")
  end.

(** A world in which the calls selected by [p] raise [e] and all others
    succeed. *)
Definition raising_world (p : call -> bool) (e : exn) : world :=
  mk_world (fun _ c => if p c then Some e else None) (fun _ => "") "now"
    sample_header sample_alternative.

(** A world in which every call succeeds. *)
Definition quiet_world : world := raising_world (fun _ => false) (mk_exn OSError "").


(** The server rejects the credentials. *)
Definition rejecting_world : world :=
  raising_world is_login (mk_exn SMTPAuthenticationError "(535, b'rejected')").

(** The server refuses the sender when the message is transmitted. *)
Definition refusing_world : world :=
  raising_world is_send (mk_exn SMTPSenderRefused "(550, b'refused')").


(** Transmission fails with an exception the [except] clause does not name. *)
Definition faulty_world : world :=
  raising_world is_send (mk_exn ValueError "embedded null byte").

(** The same request with another password. *)
Definition other_password_request : dict :=
  <["password" := VStr "q"]> merged_request.


(** Consecutive dispatches on one provider instance; the state after the
    last one. *)
Fixpoint dispatches (w : world) (requests : list dict) (st : state) : state :=
  match requests with
  | [] => st
  | data :: rest => dispatches w rest (_send_notification w data st).2
  end.

(** ** Class attributes and module constants *)






(** ** Further observations *)

(** The characters of a string, as [for c in s] yields them. *)
Definition characters (s : string) : list pyval :=
  map (fun a => VStr (String a EmptyString)) (list_ascii_of_string s).

(** The parts [_add_attachments] makes of the files at [paths]. *)
Definition attached (w : world) (paths : list string)
  : list (string * string) :=
  map (fun p => (p, file_bytes w p)) paths.

(** A successful read of each of [paths], in order. *)
Definition reads (paths : list string) : list event :=
  map (fun p => mk_event (ReadBytes p) None) paths.

(** An email with other parts. *)
Definition with_parts (email : EmailMessage) (parts : list (string * string))
  : EmailMessage :=
  mk_email (email_To email) (email_From email) (email_Subject email)
    (email_Date email) (email_subtype email) (email_body email) parts.

(** The keys [_build_email] reads, in the order it reads them. *)
Definition build_keys : list string :=
  ["to"; "from"; "subject"; "html"; "message"].

(** Every client object met so far was constructed before: the stored
    handle and the clients of the recorded calls are among the first
    [created st] objects. *)
Definition known_clients (st : state) : Prop :=
  (forall cl, smtp_server (self st) = Some cl ->
              (client_id cl < created st)%nat) /\
  Forall (fun ev => forall cl, call_client (ev_call ev) = Some cl ->
                               (client_id cl < created st)%nat) (trace st).

(** A world in which connecting to [host] fails and every other call
    succeeds. *)
Definition unreachable_world (host : string) : world :=
  raising_world
    (fun c => match c with
              | Connect _ (VStr h) _ => String.eqb h host
              | _ => false
              end)
    (mk_exn ConnectionRefusedError "[Errno 111] Connection refused").

(** A request with two attachments. *)
Definition two_files_request : dict :=
  <["attachments" := VList [VStr "a.txt"; VStr "b.txt"]]> merged_request.

(** A request whose attachment is given as one scalar path. *)
Definition scalar_attachment_request : dict :=
  <["attachments" := VStr "ab"]> merged_request.


(** A request without credentials. *)
Definition anonymous_request : dict :=
  delete "password" (delete "username" merged_request).


(** A request with a list of recipients, an alias for the sender, a
    subject and a body. *)
Definition aliased_message_request : dict :=
  <["subject" := VStr "s"]>
    (<["message" := VStr "m"]> (<["html" := VBool false]> alias_request)).

(** The calls of a complete handshake on the client [cl], as
    [_connect_to_server] issues them for the request [data]. *)
Definition handshake (cl : client) (data : dict) : list call :=
  [Connect cl (dict_get data "host") (dict_get data "port")] ++
  (if truthy (dict_get data "tls") && negb (truthy (dict_get data "ssl"))
   then [Ehlo cl; Starttls cl] else []) ++
  (if truthy (dict_get data "username")
   then [Login cl (dict_get data "username") (dict_get data "password")]
   else []).

(** The client object [_connect_to_server] constructs in the state [st]. *)
Definition next_client (st : state) (data : dict) : client :=
  mk_client (created st) (truthy (dict_get data "ssl")).

(** The events of calls that all returned. *)
Definition returned (calls : list call) : list event :=
  map (fun c => mk_event c None) calls.

(** The paths [_send_notification] attaches for the request [data]. *)
Definition attachment_paths (data : dict) (paths : list string) : Prop :=
  if truthy (dict_get data "attachments")
  then data !! "attachments" = Some (VList (map VStr paths)) \/
       exists s, data !! "attachments" = Some (VStr s) /\
                 characters s = map VStr paths
  else paths = [].

(** The clients the connect calls of a trace were made on. *)
Definition connected_clients (evs : list event) : list client :=
  omap (fun ev => if is_connect (ev_call ev)
                  then call_client (ev_call ev) else None) evs.






(** Every connect call of the trace is the first call made on its client. *)
Definition connects_first (tr : list event) : Prop :=
  forall i ev cl,
    tr !! i = Some ev -> is_connect (ev_call ev) = true ->
    call_client (ev_call ev) = Some cl ->
    Forall (fun ev0 => call_client (ev_call ev0) <> Some cl) (take i tr).

(** * Properties *)

(** ** Python equality is an equivalence *)

Section pyval_induction.
Variable P : pyval -> Prop.
Hypothesis HNone : P VNone.
Hypothesis HBool : forall b, P (VBool b).
Hypothesis HInt : forall z, P (VInt z).
Hypothesis HStr : forall s, P (VStr s).
Hypothesis HList : forall l, Forall P l -> P (VList l).

Fixpoint pyval_nested_ind (v : pyval) : P v :=
  match v with
  | VNone => HNone
  | VBool b => HBool b
  | VInt z => HInt z
  | VStr s => HStr s
  | VList l =>
      HList l
        ((fix go (l : list pyval) : Forall P l :=
            match l with
            | [] => @List.Forall_nil _ P
            | x :: l' => @List.Forall_cons _ P x l' (pyval_nested_ind x) (go l')
            end) l)
  end.
End pyval_induction.

Fixpoint list_py_eqb (l1 l2 : list pyval) : bool :=
  match l1, l2 with
  | [], [] => true
  | x1 :: l1', x2 :: l2' => py_eqb x1 x2 && list_py_eqb l1' l2'
  | _, _ => false
  end.

Lemma py_eqb_VList l1 l2 : py_eqb (VList l1) (VList l2) = list_py_eqb l1 l2.
Proof. reflexivity. Qed.

Lemma py_eqb_refl v : py_eqb v v = true.
Proof.
  induction v as [| b | z | s | l IH] using pyval_nested_ind; simpl.
  - reflexivity.
  - by destruct b.
  - apply Z.eqb_refl.
  - apply String.eqb_refl.
  - change (py_eqb (VList l) (VList l) = true). rewrite py_eqb_VList.
    induction IH as [|x l Hx _ IHl]; simpl; [done|]. by rewrite Hx, IHl.
Qed.

Lemma py_eqb_sym v1 v2 : py_eqb v1 v2 = py_eqb v2 v1.
Proof.
  revert v2.
  induction v1 as [| b | z | s | l IH] using pyval_nested_ind;
    intros [| b2 | z2 | s2 | l2]; try reflexivity.
  - by destruct b, b2.
  - simpl. apply Z.eqb_sym.
  - simpl. apply Z.eqb_sym.
  - simpl. apply Z.eqb_sym.
  - simpl. apply String.eqb_sym.
  - rewrite !py_eqb_VList. revert l2.
    induction IH as [|x l Hx _ IHl]; intros [|x2 l2]; simpl; try done.
    by rewrite Hx, IHl.
Qed.

Lemma py_eqb_trans v1 v2 v3 :
  py_eqb v1 v2 = true -> py_eqb v2 v3 = true -> py_eqb v1 v3 = true.
Proof.
  revert v2 v3.
  induction v1 as [| b | z | s | l IH] using pyval_nested_ind;
    intros [| b2 | z2 | s2 | l2] [| b3 | z3 | s3 | l3];
    try (simpl; discriminate); try done;
    try (repeat match goal with b : bool |- _ => destruct b end;
         cbn [py_eqb Z.b2z Bool.eqb];
         rewrite ?Z.eqb_eq, ?String.eqb_eq; intros; simplify_eq; done).
  rewrite !py_eqb_VList. revert l2 l3.
  induction IH as [|x l Hx _ IHl]; intros [|x2 l2] [|x3 l3]; simpl;
    try discriminate; try done.
  rewrite !andb_true_iff. intros [H12 Hl12] [H23 Hl23]. split.
  - eapply Hx; eauto.
  - eapply IHl; eauto.
Qed.

Lemma configuration_eqb_refl c : configuration_eqb c c = true.
Proof. destruct c as [[h p] u]. simpl. by rewrite !py_eqb_refl. Qed.

Lemma configuration_eqb_sym c1 c2 :
  configuration_eqb c1 c2 = configuration_eqb c2 c1.
Proof.
  destruct c1 as [[h1 p1] u1], c2 as [[h2 p2] u2]. simpl.
  by rewrite (py_eqb_sym h1), (py_eqb_sym p1), (py_eqb_sym u1).
Qed.

Lemma configuration_eqb_trans c1 c2 c3 :
  configuration_eqb c1 c2 = true -> configuration_eqb c2 c3 = true ->
  configuration_eqb c1 c3 = true.
Proof.
  destruct c1 as [[h1 p1] u1], c2 as [[h2 p2] u2], c3 as [[h3 p3] u3]. simpl.
  rewrite !andb_true_iff. intros [[? ?] ?] [[? ?] ?].
  repeat split; eapply py_eqb_trans; eauto.
Qed.

(** ** Inversion of runs *)

Lemma bind_inv {A B} (m : M A) (k : A -> M B) st r st' :
  bind m k st = (r, st') ->
  (exists a st1, m st = (Ok a, st1) /\ k a st1 = (r, st')) \/
  (exists e, m st = (Raise e, st') /\ r = Raise e).
Proof.
  unfold bind. destruct (m st) as [[a|e] st1]; intros H.
  - left. eauto.
  - right. exists e. by simplify_eq.
Qed.

Lemma lift_inv {A} (x : result A) st r st' :
  lift x st = (r, st') -> r = x /\ st' = st.
Proof. unfold lift. intros; by simplify_eq. Qed.

Lemma getitem_Ok data k v : getitem data k = Ok v <-> data !! k = Some v.
Proof. unfold getitem. destruct (data !! k); split; intros; by simplify_eq. Qed.

Lemma getitem_Raise data k e :
  getitem data k = Raise e <-> data !! k = None /\ e = key_error k.
Proof.
  unfold getitem. destruct (data !! k); split; intros; destruct_and?;
    by simplify_eq.
Qed.

Lemma get_configuration_Ok data cfg :
  _get_configuration data = Ok cfg <->
  exists host port,
    data !! "host" = Some host /\ data !! "port" = Some port /\
    cfg = (host, port, dict_get data "username").
Proof.
  unfold _get_configuration, getitem.
  destruct (data !! "host") as [h|], (data !! "port") as [p|]; split;
    intros H; try discriminate; try (destruct H as (? & ? & ? & ? & ?));
    simplify_eq; eauto.
Qed.

Lemma get_configuration_Raise data e :
  _get_configuration data = Raise e ->
  (data !! "host" = None /\ e = key_error "host") \/
  (data !! "port" = None /\ e = key_error "port").
Proof.
  unfold _get_configuration, getitem.
  destruct (data !! "host") as [h|] eqn:Hh; [|intros; simplify_eq; eauto].
  destruct (data !! "port") as [p|] eqn:Hp; intros; simplify_eq; eauto.
Qed.

Lemma do_call_inv w c st r st' :
  do_call w c st = (r, st') ->
  exists o, outcome w (trace st) c = o /\
  st' = mk_state (self st) (created st) (trace st ++ [mk_event c o]) /\
  r = match o with None => Ok tt | Some e => Raise e end.
Proof. unfold do_call. intros; simplify_eq. eauto. Qed.

Lemma emitted_app st st' evs :
  trace st' = trace st ++ evs -> emitted st st' = evs.
Proof. unfold emitted. intros ->. apply drop_app_length. Qed.

Lemma as_str_inv v st r st' :
  as_str v st = (r, st') ->
  st' = st /\
  ((exists s, v = VStr s /\ r = Ok s) \/
   (is_str v = false /\ r = Raise (mk_exn TypeError "expected str"))).
Proof.
  destruct v; cbn; unfold ret, raise; intros; simplify_eq;
    (split; [done|]); first [by right | left; eauto].
Qed.

(** Splits a run into the runs of its parts. *)
Ltac inv_run :=
  repeat (match goal with
  | H : Raise _ = Ok _ |- _ => discriminate H
  | H : Ok _ = Raise _ |- _ => discriminate H
  | H : (_, _) = (_, _) |- _ =>
      apply pair_equal_spec in H; destruct H as [? ?]
  | H : Ok _ = Ok _ |- _ => injection H as ?
  | H : Raise _ = Raise _ |- _ => injection H as ?
  | H : lift _ _ = (_, _) |- _ => apply lift_inv in H; destruct H as [? ?]
  | H : ret _ _ = (_, _) |- _ => unfold ret in H
  | H : raise _ _ = (_, _) |- _ => unfold raise in H
  | H : as_str _ _ = (_, _) |- _ =>
      apply as_str_inv in H; destruct H as [? [(? & ? & ?)|[? ?]]]
  | H : do_call _ _ _ = (_, _) |- _ =>
      apply do_call_inv in H; destruct H as ([?|] & ? & ? & ?)
  | H : new_client _ _ = (_, _) |- _ => unfold new_client in H
  | H : set_smtp_server _ _ = (_, _) |- _ => unfold set_smtp_server in H
  | H : set_configuration _ _ = (_, _) |- _ => unfold set_configuration in H
  | H : get_self _ = (_, _) |- _ => unfold get_self in H
  | H : Ok _ = getitem _ _ |- _ => symmetry in H
  | H : Raise _ = getitem _ _ |- _ => symmetry in H
  | H : Ok _ = _get_configuration _ |- _ => symmetry in H
  | H : Raise _ = _get_configuration _ |- _ => symmetry in H
  | H : Ok _ = header _ _ _ |- _ => symmetry in H
  | H : Raise _ = header _ _ _ |- _ => symmetry in H
  | H : Ok _ = alternative _ _ _ |- _ => symmetry in H
  | H : Raise _ = alternative _ _ _ |- _ => symmetry in H
  | H : _get_configuration _ = Raise _ |- _ =>
      apply get_configuration_Raise in H; destruct H as [[? ?]|[? ?]]
  | H : getitem _ _ = Ok _ |- _ => apply getitem_Ok in H
  | H : getitem _ _ = Raise _ |- _ =>
      apply getitem_Raise in H; destruct H as [? ?]
  | H : (if ?b then _ else _) _ = (_, _) |- _ => destruct b eqn:?
  | H : bind _ _ _ = (_, _) |- _ =>
      apply bind_inv in H; destruct H as [(? & ? & ? & H) | (? & H & ?)]
  end; subst); cbn [self created trace smtp_server configuration] in *.

(** Exhibits the events appended to a trace. *)
Ltac ext_solve :=
  eexists; split;
  [ cbn [self created trace smtp_server configuration];
    rewrite <- ?app_assoc; cbn [app];
    first [reflexivity | symmetry; apply app_nil_r] | ].

Ltac in_cases H :=
  repeat (apply elem_of_cons in H as [->|H]); try (by apply elem_of_nil in H).

(** ** Establishing a session *)

Lemma connect_to_server_spec w data st r st' :
  _connect_to_server w data st = (r, st') ->
  exists evs,
    trace st' = trace st ++ evs /\
    Forall (fun ev => is_session_call (ev_call ev) = true) evs /\
    (count_calls is_connect evs <= 1)%nat /\
    (count_calls is_login evs <= 1)%nat /\
    (is_Some (data !! "ssl") -> is_Some (data !! "host") ->
     is_Some (data !! "port") -> count_calls is_connect evs = 1%nat) /\
    (forall ev e, ev ∈ evs -> ev_exn ev = Some e ->
                  r = Raise e /\ last evs = Some ev) /\
    (r = Ok tt ->
     exists cfg c, _get_configuration data = Ok cfg /\
                   self st' = mk_SMTP (Some c) (Some cfg) /\
                   count_calls is_connect evs = 1%nat) /\
    (forall c e, last evs = Some (mk_event c (Some e)) ->
       is_Some (smtp_server (self st')) /\
       if is_connect c
       then configuration (self st') = configuration (self st)
       else exists cfg, _get_configuration data = Ok cfg /\
                        configuration (self st') = Some cfg) /\
    (forall e, r = Raise e -> connect_keys data = true ->
               exists tr c, outcome w tr c = Some e).
Proof.
  intros H. unfold _connect_to_server in H. inv_run.
  all: ext_solve.
  all: split; [repeat constructor|].
  all: split; [cbn; lia|]; split; [cbn; lia|].
  all: split; [first [reflexivity | by intros [? ?] [? ?] [? ?]; simplify_eq]|].
  all: split; [intros ev e' Hin Hex; in_cases Hin; cbn in Hex; by simplify_eq|].
  all: split; [first [discriminate
                     | intros _; eexists _, _; split_and!; done]|].
  all: split; [intros c' e' Hl; cbn in Hl; simplify_eq; cbn; eauto|].
  all: intros e' He Hk; simplify_eq; eauto.
  all: exfalso; unfold connect_keys, dict_get in *;
    repeat match goal with
    | H : _ !! _ = None, H' : context [_ !! _] |- _ => rewrite H in H'
    | H : truthy _ = true, H' : context [truthy _] |- _ => rewrite H in H'
    end;
    rewrite !andb_true_iff in Hk;
    destruct Hk as ((((Hk1 & Hk2) & Hk3) & Hk4) & Hk5); cbn in *;
    first [discriminate | congruence].
Qed.

(** ** Building the payload *)

Lemma is_str_dict_get data k :
  is_str (dict_get data k) = true -> exists s, data !! k = Some (VStr s).
Proof.
  unfold dict_get. destruct (data !! k) as [[]|]; cbn; intros; by eauto.
Qed.

Lemma well_formed_inv data :
  well_formed data = true ->
  (exists s, data !! "message" = Some (VStr s)) /\
  (exists s, data !! "to" = Some (VStr s)) /\
  (exists s, data !! "from" = Some (VStr s)) /\
  (exists s, data !! "subject" = Some (VStr s)) /\
  is_Some (data !! "html") /\
  connect_keys data = true /\
  match dict_get data "attachments" with
  | VNone | VStr _ => True
  | VList l => forallb is_str l = true
  | _ => False
  end.
Proof.
  unfold well_formed, connect_keys. rewrite !andb_true_iff.
  intros ((((((((((Hm & Ht) & Hf) & Hs) & Hh) & Hp) & Htls) & Hssl) & Hhtml)
            & Hu) & Ha).
  apply is_str_dict_get in Hm, Ht, Hf, Hs.
  apply bool_decide_eq_true in Hhtml.
  split_and!; try done.
  destruct (dict_get data "attachments"); done.
Qed.

Lemma accepted_not_refused w data e :
  accepted w data = true -> refused w data e -> False.
Proof.
  unfold accepted, refused. rewrite !andb_true_iff.
  intros (((H1 & H2) & H3) & H4) [H|[H|[H|H]]]; rewrite H in *; done.
Qed.

Lemma build_email_spec w data st r st' :
  _build_email w data st = (r, st') ->
  st' = st /\
  (forall e, r = Raise e -> well_formed data = true -> refused w data e) /\
  (accepted w data = true -> well_formed data = true -> exists em, r = Ok em).
Proof.
  intros H.
  assert (st' = st /\
          (forall e, r = Raise e -> well_formed data = true ->
                     refused w data e)) as [-> Href].
  { unfold _build_email in H. inv_run.
    all: split; [reflexivity|]; intros e' He Hwf; try discriminate.
    all: try (apply well_formed_inv in Hwf;
              destruct Hwf as ([? ?] & [? ?] & [? ?] & [? ?] & [? ?] & _);
              congruence).
    all: injection He as <-; unfold refused, subtype_of, dict_get;
      repeat match goal with
      | H : _ !! _ = Some _ |- _ => rewrite H
      end; cbn [default from_option id]; tauto. }
  split_and!; [done|done|].
  intros Hacc Hwf. destruct r as [em|e]; [by eauto|].
  destruct (accepted_not_refused _ _ _ Hacc (Href e eq_refl Hwf)).
Qed.

Lemma attach_all_spec w l em st r st' :
  attach_all w l em st = (r, st') ->
  self st' = self st /\
  exists evs,
    trace st' = trace st ++ evs /\
    Forall (fun ev => is_transport_call (ev_call ev) = false) evs /\
    (forall ev e, ev ∈ evs -> ev_exn ev = Some e ->
                  r = Raise e /\ last evs = Some ev) /\
    (forall e, r = Raise e -> forallb is_str l = true ->
               exists tr c, outcome w tr c = Some e) /\
    (forallb is_str l = true ->
     (exists p, VStr p ∈ l /\ unreadable w p) -> exists e, r = Raise e).
Proof.
  revert em st r st'. induction l as [|a l IH]; intros em st r st' H; cbn in H.
  - inv_run. split; [done|]. exists []. rewrite app_nil_r.
    split_and!; try done.
    + intros ev e Hin. by apply elem_of_nil in Hin.
    + intros _ (p & Hp & _). by apply elem_of_nil in Hp.
  - inv_run;
      try (split; [done|]; exists []; rewrite app_nil_r;
           split_and!;
           [ done | constructor
           | intros ev e Hin; by apply elem_of_nil in Hin
           | intros e' _ Hf; cbn in Hf;
             match goal with H : is_str _ = false |- _ => rewrite H in Hf end;
             discriminate
           | eauto ]).
    + (* the file was read *)
      match goal with H : attach_all _ _ _ _ = _ |- _ =>
        apply IH in H; destruct H as (Hs & evs & Ht & Hk & Hd & Ho & Hu) end.
      cbn in *. split; [done|].
      eexists (_ :: evs). rewrite Ht, <- app_assoc. cbn [app].
      split_and!; try done.
      * by constructor.
      * intros ev e Hin Hex.
        apply elem_of_cons in Hin as [->|Hin]; [done|].
        destruct (Hd _ _ Hin Hex) as [-> Hl]. split; [done|].
        destruct evs; [by apply elem_of_nil in Hin|done].
      * intros Hstr (p & Hp & Hun). apply Hu; [done|].
        apply elem_of_cons in Hp as [Hp|Hp]; [|by eauto].
        simplify_eq. match goal with H : outcome _ ?tr _ = None |- _ => destruct (Hun tr) as [e He]; congruence end.
    + (* reading the file raised *)
      split; [done|]. eexists [_]. split_and!; try done.
      * by repeat constructor.
      * intros ev e' Hin Hex. apply list_elem_of_singleton in Hin. subst.
        cbn in Hex. by simplify_eq.
      * intros; simplify_eq. eauto.
      * eauto.
Qed.
Lemma forallb_is_str_chars s :
  forallb is_str
    (map (fun a => VStr (String a EmptyString)) (list_ascii_of_string s)) = true.
Proof. induction s as [|a s IH]; cbn; done. Qed.

Lemma add_attachments_spec w data em st r st' :
  _add_attachments w data em st = (r, st') ->
  self st' = self st /\
  exists evs,
    trace st' = trace st ++ evs /\
    Forall (fun ev => is_transport_call (ev_call ev) = false) evs /\
    (forall ev e, ev ∈ evs -> ev_exn ev = Some e ->
                  r = Raise e /\ last evs = Some ev) /\
    (forall e, r = Raise e -> well_formed data = true ->
               truthy (dict_get data "attachments") = true ->
               exists tr c, outcome w tr c = Some e) /\
    (forall l p, well_formed data = true ->
                 data !! "attachments" = Some (VList l) ->
                 VStr p ∈ l -> unreadable w p -> exists e, r = Raise e).
Proof.
  intros H. unfold _add_attachments in H.
  apply bind_inv in H as [(v & st1 & Hv & H)|(e & Hv & ->)];
    apply lift_inv in Hv as [Hv ->].
  2:{ symmetry in Hv. apply getitem_Raise in Hv as [Hv ->].
      split; [done|]. exists []. rewrite app_nil_r. split_and!; try done.
      - intros ev e Hin. by apply elem_of_nil in Hin.
      - intros e _ _ Ht. unfold dict_get in Ht. by rewrite Hv in Ht.
      - intros l p _ Hl. congruence. }
  symmetry in Hv. apply getitem_Ok in Hv.
  apply bind_inv in H as [(l & st2 & Hi & H)|(e & Hi & ->)].
  - assert (st2 = st /\
            ((v = VList l) \/
             (exists s, v = VStr s /\ forallb is_str l = true))) as [-> Hl].
    { destruct v; cbn in Hi; unfold ret, raise in Hi; simplify_eq;
        (split; [done|]);
        first [ by left
              | right; eexists; split; [done|]; apply forallb_is_str_chars ]. }
    apply attach_all_spec in H as (Hs & evs & Ht & Hk & Hd & Ho & Hu).
    split; [done|]. exists evs. split_and!; try done.
    + intros e He Hwf _. apply (Ho e He).
      apply well_formed_inv in Hwf as (_ & _ & _ & _ & _ & _ & Ha).
      unfold dict_get in Ha. rewrite Hv in Ha. cbn in Ha.
      destruct Hl as [->|(s & -> & Hl)]; done.
    + intros l' p Hwf Hl' Hp Hun. rewrite Hv in Hl'. simplify_eq.
      destruct Hl as [Hl|(s & Hl & _)]; simplify_eq.
      apply Hu; [|by eauto].
      apply well_formed_inv in Hwf as (_ & _ & _ & _ & _ & _ & Ha).
      unfold dict_get in Ha. by rewrite Hv in Ha.
  - assert (st' = st /\ is_str v = false /\
            match v with VList _ => False | _ => True end) as (-> & Hs & Hnl).
    { destruct v; cbn in Hi; unfold ret, raise in Hi; by simplify_eq. }
    split; [done|]. exists []. rewrite app_nil_r. split_and!; try done.
    + intros ev e' Hin. by apply elem_of_nil in Hin.
    + intros e' _ Hwf Htr.
      apply well_formed_inv in Hwf as (_ & _ & _ & _ & _ & _ & Ha).
      unfold dict_get in Ha, Htr. rewrite Hv in Ha, Htr. cbn in Ha, Htr.
      destruct v; done.
    + intros l p _ Hl. rewrite Hv in Hl. by simplify_eq.
Qed.

(** ** Counting calls *)

Lemma count_calls_app p evs1 evs2 :
  count_calls p (evs1 ++ evs2) = (count_calls p evs1 + count_calls p evs2)%nat.
Proof. unfold count_calls. by rewrite List.filter_app, length_app. Qed.

Lemma count_calls_none p evs :
  Forall (fun ev => p (ev_call ev) = false) evs -> count_calls p evs = 0%nat.
Proof.
  unfold count_calls. induction 1 as [|ev evs Hev _ IH]; cbn; [done|].
  by rewrite Hev.
Qed.

Lemma not_transport_not_session c :
  is_transport_call c = false -> is_session_call c = false.
Proof. by destruct c. Qed.

Lemma session_not_send c : is_session_call c = true -> is_send c = false.
Proof. by destruct c. Qed.

Lemma not_session_not_connect c :
  is_session_call c = false -> is_connect c = false.
Proof. by destruct c. Qed.

Lemma not_session_not_login c :
  is_session_call c = false -> is_login c = false.
Proof. by destruct c. Qed.

Lemma last_elem_of {A} (l : list A) x : last l = Some x -> x ∈ l.
Proof.
  intros H. apply last_Some in H as [l' ->]. apply elem_of_app. right.
  by apply list_elem_of_singleton.
Qed.

Lemma last_app_nonempty {A} (l1 l2 : list A) x :
  last l2 = Some x -> last (l1 ++ l2) = Some x.
Proof.
  intros H. apply last_Some in H as [l' ->]. rewrite app_assoc.
  apply last_snoc.
Qed.

(** ** Delivering the message *)

Lemma deliver_spec w data st r st' :
  deliver w data st = (r, st') ->
  self st' = self st /\
  exists evs,
    trace st' = trace st ++ evs /\
    Forall (fun ev => is_session_call (ev_call ev) = false) evs /\
    (forall ev e, ev ∈ evs -> ev_exn ev = Some e ->
                  r = Raise e /\ last evs = Some ev) /\
    (forall ev, ev ∈ evs -> is_send (ev_call ev) = true ->
                last evs = Some ev /\
                exists srv em, ev_call ev = SendMessage srv em /\
                               smtp_server (self st) = Some srv) /\
    (r = Ok tt -> exists ev, last evs = Some ev /\ is_send (ev_call ev) = true) /\
    (forall e, r = Raise e -> well_formed data = true ->
               is_Some (smtp_server (self st)) ->
               (exists tr c, outcome w tr c = Some e) \/ refused w data e) /\
    (forall l p, well_formed data = true ->
                 data !! "attachments" = Some (VList l) ->
                 VStr p ∈ l -> unreadable w p ->
                 (exists e, r = Raise e) /\
                 Forall (fun ev => is_transport_call (ev_call ev) = false) evs).
Proof.
  intros H. unfold deliver in H.
  apply bind_inv in H as [(em & st1 & Hb & H)|(e & Hb & ->)];
    apply build_email_spec in Hb as (-> & Hbref & _).
  2:{ split; [done|]. exists []. rewrite app_nil_r. split_and!; try done.
      - intros ev e' Hin. by apply elem_of_nil in Hin.
      - intros ev Hin. by apply elem_of_nil in Hin.
      - intros e' He Hwf _. right. injection He as <-. by apply Hbref.
      - intros l p Hwf _ _ _. split; [by eauto|constructor]. }
  clear Hbref.
  assert (exists ra sta evs_a,
    (self sta = self st /\ trace sta = trace st ++ evs_a /\
     Forall (fun ev => is_transport_call (ev_call ev) = false) evs_a /\
     (forall ev e, ev ∈ evs_a -> ev_exn ev = Some e ->
                   ra = Raise e /\ last evs_a = Some ev) /\
     (forall e, ra = Raise e -> well_formed data = true ->
                exists tr c, outcome w tr c = Some e) /\
     (forall l p, well_formed data = true ->
                  data !! "attachments" = Some (VList l) ->
                  VStr p ∈ l -> unreadable w p -> exists e, ra = Raise e)) /\
    ((exists e, ra = Raise e /\ r = Raise e /\ st' = sta) \/
     (exists em', ra = Ok em' /\
        bind the_smtp_server
          (fun server => do_call w (SendMessage server em')) sta = (r, st'))))
    as (ra & sta & evs_a & (Hsa & Hta & Hka & Hda & Hoa & Hua) & Hrest).
  { apply bind_inv in H as [(em' & st2 & Ha & H)|(e & Ha & ->)].
    - exists (Ok em'), st2.
      destruct (truthy (dict_get data "attachments")) eqn:Htr.
      + apply add_attachments_spec in Ha as (Hs & evs & Ht & Hk & Hd & Ho & Hu).
        exists evs. split; [|right; eauto]. split_and!; try done.
      + unfold ret in Ha. simplify_eq. exists []. rewrite app_nil_r.
        split; [|right; eauto]. split_and!; try done.
        * intros ev e Hin. by apply elem_of_nil in Hin.
        * intros l p Hwf Hl Hp _. exfalso.
          unfold dict_get in Htr. rewrite Hl in Htr. cbn in Htr.
          destruct l; [by apply elem_of_nil in Hp|done].
    - exists (Raise e), st'.
      destruct (truthy (dict_get data "attachments")) eqn:Htr;
        [|unfold ret in Ha; simplify_eq].
      apply add_attachments_spec in Ha as (Hs & evs & Ht & Hk & Hd & Ho & Hu).
      exists evs. split; [|left; eauto]. split_and!; try done.
      intros e' He Hwf. by apply Ho. }
  assert (Forall (fun ev => is_session_call (ev_call ev) = false) evs_a) as Hka'.
  { eapply Forall_impl; [exact Hka|]. intros ev. apply not_transport_not_session. }
  assert (forall ev, ev ∈ evs_a -> is_send (ev_call ev) = true -> False) as Hns.
  { intros ev Hin Hsend. rewrite Forall_forall in Hka.
    specialize (Hka _ Hin). by destruct (ev_call ev). }
  clear H. destruct Hrest as [(e & -> & -> & ->)|(em' & -> & H)].
  { split; [done|]. exists evs_a. split_and!.
    - done.
    - done.
    - intros ev e' Hin Hex. destruct (Hda _ _ Hin Hex) as [? ?].
      by simplify_eq.
    - intros ev Hin Hsend. by destruct (Hns ev Hin Hsend).
    - done.
    - intros e' He Hwf _. simplify_eq. left. by apply Hoa.
    - intros l p Hwf Hl Hp Hun. split; [eauto|done]. }
  apply bind_inv in H as [(srv & st3 & Hsrv & H)|(e & Hsrv & ->)];
    unfold the_smtp_server in Hsrv; rewrite Hsa in Hsrv;
    destruct (smtp_server (self st)) as [srv'|] eqn:Hss; simplify_eq.
  - apply do_call_inv in H as (o & Ho & -> & ->). cbn.
    split; [done|]. eexists (evs_a ++ [_]). rewrite Hta, <- app_assoc.
    split; [done|]. split_and!.
    + apply Forall_app. split; [done|]. by repeat constructor.
    + intros ev e Hin Hex. apply elem_of_app in Hin as [Hin|Hin].
      * by destruct (Hda _ _ Hin Hex).
      * apply list_elem_of_singleton in Hin. subst. cbn in Hex.
        split; [by rewrite Hex|]. apply last_snoc.
    + intros ev Hin Hsend. apply elem_of_app in Hin as [Hin|Hin].
      * by destruct (Hns ev Hin Hsend).
      * apply list_elem_of_singleton in Hin. subst. split; [apply last_snoc|].
        cbn. eauto.
    + intros _. eexists. split; [apply last_snoc|done].
    + intros e He Hwf _. left.
      destruct (outcome w (trace st3) (SendMessage srv em')) eqn:Hout;
        simplify_eq; eauto.
    + intros l p Hwf Hl Hp Hun. by destruct (Hua l p Hwf Hl Hp Hun).
  - split; [done|]. exists evs_a. split_and!.
    + done.
    + done.
    + intros ev e Hin Hex. by destruct (Hda _ _ Hin Hex).
    + intros ev Hin Hsend. by destruct (Hns ev Hin Hsend).
    + done.
    + intros e _ _ [? ?]. done.
    + intros l p Hwf Hl Hp Hun. by destruct (Hua l p Hwf Hl Hp Hun).
Qed.

(** ** The body of the dispatch *)

Lemma try_body_unfold w data :
  try_body w data =
  bind (lift (_get_configuration data)) (fun cfg =>
    bind get_self (fun s =>
      bind (if must_connect s cfg then _connect_to_server w data else ret tt)
           (fun _ => deliver w data))).
Proof. reflexivity. Qed.

Lemma connected_for_alt s data cfg :
  _get_configuration data = Ok cfg ->
  connected_for s data = negb (must_connect s cfg).
Proof. unfold connected_for. by intros ->. Qed.

Lemma connected_after_connect c cfg data :
  _get_configuration data = Ok cfg ->
  connected_for (mk_SMTP (Some c) (Some cfg)) data = true.
Proof.
  intros H. rewrite (connected_for_alt _ _ _ H). unfold must_connect. cbn.
  by rewrite configuration_eqb_refl.
Qed.

Lemma not_transport_not_send c :
  is_transport_call c = false -> is_send c = false.
Proof. by destruct c. Qed.

Lemma connect_keys_inv data :
  connect_keys data = true ->
  is_Some (data !! "ssl") /\ is_Some (data !! "host") /\
  is_Some (data !! "port").
Proof.
  unfold connect_keys. rewrite !andb_true_iff.
  intros ((((H1 & H2) & H3) & _) & _).
  by apply bool_decide_eq_true in H1, H2, H3.
Qed.

Lemma connect_keys_configuration data e :
  connect_keys data = true -> _get_configuration data = Raise e -> False.
Proof.
  intros Hk Hc. apply connect_keys_inv in Hk as (_ & Hh & Hp).
  apply get_configuration_Raise in Hc.
  destruct Hc as [[Hn _]|[Hn _]]; rewrite Hn in *; by eapply is_Some_None.
Qed.

Lemma try_body_spec w data st r st' :
  try_body w data st = (r, st') ->
  exists evs,
    trace st' = trace st ++ evs /\
    (count_calls is_connect evs <= 1)%nat /\
    (count_calls is_login evs <= 1)%nat /\
    (connected_for (self st) data = true ->
     self st' = self st /\
     Forall (fun ev => is_session_call (ev_call ev) = false) evs) /\
    (connected_for (self st) data = false ->
     connect_keys data = true \/ r = Ok tt ->
     count_calls is_connect evs = 1%nat) /\
    (r = Ok tt ->
     connected_for (self st') data = true /\
     exists ev, last evs = Some ev /\ is_send (ev_call ev) = true) /\
    (forall ev e, ev ∈ evs -> ev_exn ev = Some e ->
                  r = Raise e /\ last evs = Some ev) /\
    (forall c e, last evs = Some (mk_event c (Some e)) ->
       if is_connect c
       then configuration (self st') = configuration (self st)
       else connected_for (self st') data = true) /\
    (forall ev, ev ∈ evs -> is_send (ev_call ev) = true ->
       last evs = Some ev /\
       exists srv em, ev_call ev = SendMessage srv em /\
                      smtp_server (self st') = Some srv) /\
    (forall e, r = Raise e -> well_formed data = true ->
               (exists tr c, outcome w tr c = Some e) \/ refused w data e) /\
    (forall l p, well_formed data = true ->
       data !! "attachments" = Some (VList l) ->
       VStr p ∈ l -> unreadable w p ->
       (exists e, r = Raise e) /\
       Forall (fun ev => is_send (ev_call ev) = false) evs /\
       (connected_for (self st) data = true ->
        Forall (fun ev => is_transport_call (ev_call ev) = false) evs)).
Proof.
  rewrite try_body_unfold. intros H.
  apply bind_inv in H as [(cfg & st0 & Hc & H)|(e & Hc & ->)];
    apply lift_inv in Hc as [Hc ->]; symmetry in Hc.
  2:{ (* the request has no host or no port *)
      exists []. rewrite app_nil_r.
      assert (connected_for (self st) data = false) as Hcf
        by (unfold connected_for; by rewrite Hc).
      split_and!.
      - done.
      - cbn; lia.
      - cbn; lia.
      - by rewrite Hcf.
      - intros _ [Hk|?]; [|done].
        by destruct (connect_keys_configuration _ _ Hk Hc).
      - done.
      - intros ev e' Hin. by apply elem_of_nil in Hin.
      - done.
      - intros ev Hin. by apply elem_of_nil in Hin.
      - intros e' He Hwf. exfalso.
        apply well_formed_inv in Hwf as (_ & _ & _ & _ & _ & Hk & _).
        by destruct (connect_keys_configuration _ _ Hk Hc).
      - intros l p Hwf _ _ _. exfalso.
        apply well_formed_inv in Hwf as (_ & _ & _ & _ & _ & Hk & _).
        by destruct (connect_keys_configuration _ _ Hk Hc). }
  apply bind_inv in H as [(s & st1 & Hs & H)|(e & Hs & ->)];
    unfold get_self in Hs; [injection Hs as <- <-|discriminate].
  rewrite (connected_for_alt _ _ _ Hc).
  destruct (must_connect (self st) cfg) eqn:Hmc; cbn [negb].
  - (* a session is established first *)
    apply bind_inv in H as [([] & st1 & Hconn & H)|(e & Hconn & ->)];
      apply connect_to_server_spec in Hconn
        as (evs_c & Htc & Hkc & Hcc & Hlc & Hc1 & Hdc & Hokc & Hfc & Hoc).
    + destruct (Hokc eq_refl) as (cfg' & c & Hcfg' & Hself1 & Hone).
      rewrite Hc in Hcfg'. simplify_eq.
      apply deliver_spec in H
        as (Hsd & evs_d & Htd & Hkd & Hdd & Hsendd & Hokd & Hod & Hud).
      assert (connected_for (self st') data = true) as Hconn'.
      { rewrite Hsd, Hself1. by apply connected_after_connect. }
      assert (Forall (fun ev => ev_exn ev = None) evs_c) as Hquiet.
      { apply Forall_forall. intros ev Hin.
        destruct (ev_exn ev) as [e|] eqn:Hex; [|done].
        by destruct (Hdc _ _ Hin Hex). }
      exists (evs_c ++ evs_d). rewrite Htd, Htc, <- app_assoc.
      rewrite !count_calls_app.
      rewrite (count_calls_none is_connect evs_d),
        (count_calls_none is_login evs_d), !Nat.add_0_r
        by (eapply Forall_impl; [exact Hkd|]; intros ev;
            first [apply not_session_not_connect|apply not_session_not_login]).
      split_and!.
      * done.
      * done.
      * done.
      * done.
      * intros _ _. exact Hone.
      * intros ->. split; [done|].
        destruct (Hokd eq_refl) as (ev & Hl & Hsend). exists ev.
        split; [|done]. by apply last_app_nonempty.
      * intros ev e Hin Hex. apply elem_of_app in Hin as [Hin|Hin].
        -- by destruct (Hdc _ _ Hin Hex).
        -- destruct (Hdd _ _ Hin Hex) as [-> Hl]. split; [done|].
           by apply last_app_nonempty.
      * intros c' e Hl.
        assert (mk_event c' (Some e) ∈ evs_d) as Hin.
        { apply last_elem_of in Hl. apply elem_of_app in Hl as [Hin|Hin];
            [|done].
          rewrite Forall_forall in Hquiet. by specialize (Hquiet _ Hin). }
        rewrite Forall_forall in Hkd. specialize (Hkd _ Hin). cbn in Hkd.
        by rewrite (not_session_not_connect _ Hkd).
      * intros ev Hin Hsend. apply elem_of_app in Hin as [Hin|Hin].
        -- rewrite Forall_forall in Hkc. specialize (Hkc _ Hin).
           apply session_not_send in Hkc. congruence.
        -- destruct (Hsendd _ Hin Hsend) as (Hl & srv & em & Hev & Hsrv).
           split; [by apply last_app_nonempty|].
           exists srv, em. split; [done|]. by rewrite Hsd.
      * intros e He Hwf. apply (Hod e He Hwf). rewrite Hself1. by eexists.
      * intros l p Hwf Hl Hp Hun.
        destruct (Hud l p Hwf Hl Hp Hun) as [Hr Hnt]. split; [done|].
        split; [|done]. apply Forall_app. split.
        -- eapply Forall_impl; [exact Hkc|]. intros ev.
           apply session_not_send.
        -- eapply Forall_impl; [exact Hnt|]. intros ev. apply not_transport_not_send.
    + (* establishing the session raised *)
      exists evs_c. split_and!.
      * done.
      * done.
      * done.
      * done.
      * intros _ [Hk|?]; [|done].
        apply connect_keys_inv in Hk as (? & ? & ?). by apply Hc1.
      * done.
      * intros ev e' Hin Hex. destruct (Hdc _ _ Hin Hex) as [? ?].
        by simplify_eq.
      * intros c' e' Hl. destruct (Hfc _ _ Hl) as [Hsome Hcase].
        destruct (is_connect c'); [done|].
        destruct Hcase as (cfg' & Hcfg' & Hcf). rewrite Hc in Hcfg'.
        simplify_eq. destruct Hsome as [srv Hsrv].
        rewrite (connected_for_alt _ _ _ Hc). unfold must_connect.
        rewrite Hcf, Hsrv. by rewrite configuration_eqb_refl.
      * intros ev Hin Hsend. rewrite Forall_forall in Hkc.
        specialize (Hkc _ Hin). apply session_not_send in Hkc. congruence.
      * intros e' He Hwf. simplify_eq. left. apply Hoc; [done|].
        by apply well_formed_inv in Hwf as (_ & _ & _ & _ & _ & Hk & _).
      * intros l p Hwf Hl Hp Hun. split; [eauto|]. split; [|done].
        eapply Forall_impl; [exact Hkc|]. intros ev. apply session_not_send.
  - (* the session is reused *)
    apply bind_inv in H as [([] & st1 & Hr & H)|(e & Hr & ->)];
      unfold ret in Hr; [injection Hr as <-|discriminate].
    apply deliver_spec in H
      as (Hsd & evs_d & Htd & Hkd & Hdd & Hsendd & Hokd & Hod & Hud).
    assert (is_Some (smtp_server (self st))) as Hsome.
    { unfold must_connect in Hmc.
      destruct (configuration (self st)); [|done].
      by destruct (smtp_server (self st)). }
    exists evs_d.
    rewrite (count_calls_none is_connect evs_d),
      (count_calls_none is_login evs_d)
      by (eapply Forall_impl; [exact Hkd|]; intros ev;
          first [apply not_session_not_connect|apply not_session_not_login]).
    rewrite Hsd, (connected_for_alt _ _ _ Hc), Hmc. cbn [negb]. split_and!.
    * done.
    * lia.
    * lia.
    * done.
    * done.
    * intros ->. split; [done|]. by apply Hokd.
    * done.
    * intros c' e Hl. apply last_elem_of in Hl.
      rewrite Forall_forall in Hkd. specialize (Hkd _ Hl). cbn in Hkd.
      by rewrite (not_session_not_connect _ Hkd).
    * done.
    * intros e He Hwf. by apply Hod.
    * intros l p Hwf Hl Hp Hun.
      destruct (Hud l p Hwf Hl Hp Hun) as [Hr Hnt]. split; [done|].
      split; [|done].
      eapply Forall_impl; [exact Hnt|]. intros ev. apply not_transport_not_send.
Qed.

(** ** Normalization *)

Lemma list_to_commas_strings l :
  forallb is_str l = true -> exists s, list_to_commas l = Ok s.
Proof.
  induction l as [|v l IH]; cbn; [by eauto|].
  destruct v; try discriminate. cbn. intros Hl.
  destruct l as [|v' l']; [by eauto|].
  destruct (IH Hl) as [s' ->]. by eauto.
Qed.

(** The collection collapse leaves every key but [to] alone. *)
Lemma prepare_data_from_underscore data :
  to_joinable data = true ->
  exists d1,
    (forall k, k <> "to" -> d1 !! k = data !! k) /\
    _prepare_data data =
      if truthy (dict_get d1 "from_")
      then Ok (<["from" := dict_get d1 "from_"]> (delete "from_" d1))
      else Ok d1.
Proof.
  unfold to_joinable, _prepare_data, getitem. intros Hj.
  destruct (data !! "to") as [to|] eqn:Hto; [|done].
  destruct to as [| | | |l]; try (exists data; split; [done|reflexivity]).
  destruct (list_to_commas_strings l Hj) as [s ->].
  exists (<["to" := VStr s]> data). split; [|reflexivity].
  intros k Hk. by rewrite lookup_insert_ne.
Qed.

(** C6: a merged request has passed validation: [to] is there and is one
    string or a sequence of strings, and an alias [from_], when present, is
    a string in the format of an address, hence not empty.  For such a
    request [_prepare_data] moves the alias onto [from], overriding a
    [from] supplied next to it, and removes the key [from_]. *)
Theorem prepare_data_moves_alias data alias :
  data !! "from_" = Some (VStr alias) -> alias <> "" ->
  to_joinable data = true ->
  exists d',
    _prepare_data data = Ok d' /\
    d' !! "from" = Some (VStr alias) /\ d' !! "from_" = None.
Proof.
  intros Hv Hne Hj.
  assert (truthy (VStr alias) = true) as Ht.
  { cbn. by destruct (String.eqb_spec alias ""). }
  destruct (prepare_data_from_underscore data Hj) as (d1 & Hd1 & ->).
  assert (dict_get d1 "from_" = VStr alias) as ->.
  { unfold dict_get. by rewrite Hd1, Hv. }
  rewrite Ht. eexists. split; [reflexivity|]. split.
  - by rewrite lookup_insert_eq.
  - rewrite lookup_insert_ne by done. apply lookup_delete_eq.
Qed.

Lemma prepare_data_moves_alias_witness :
  alias_request !! "from_" = Some (VStr "c@x.com") /\
  exists d',
    _prepare_data alias_request = Ok d' /\
    d' !! "from" = Some (VStr "c@x.com") /\ d' !! "from_" = None.
Proof.
  split; [reflexivity|].
  apply (prepare_data_moves_alias alias_request "c@x.com");
    [reflexivity|discriminate|reflexivity].
Defined.

(** C7: normalizing a normalized request changes nothing; a request that
    cannot be normalized fails the same way both times. *)
Theorem prepare_data_idempotent data :
  and_then (_prepare_data data) _prepare_data = _prepare_data data.
Proof.
  unfold _prepare_data at 1 3. unfold getitem.
  destruct (data !! "to") as [to|] eqn:Hto; [|reflexivity].
  assert (forall d1 : dict,
            (exists v, d1 !! "to" = Some v /\
                       match v with VList _ => False | _ => True end) ->
            and_then
              (if truthy (dict_get d1 "from_")
               then Ok (<["from" := dict_get d1 "from_"]> (delete "from_" d1))
               else Ok d1) _prepare_data =
            (if truthy (dict_get d1 "from_")
             then Ok (<["from" := dict_get d1 "from_"]> (delete "from_" d1))
             else Ok d1)) as Hstep.
  { intros d1 (v & Hv & Hnl).
    destruct (truthy (dict_get d1 "from_")) eqn:Htr; cbn.
    - unfold _prepare_data, getitem.
      rewrite lookup_insert_ne, lookup_delete_ne, Hv by done.
      assert (dict_get (<["from":=dict_get d1 "from_"]> (delete "from_" d1))
                "from_" = VNone) as Hgone.
      { unfold dict_get at 1.
        by rewrite lookup_insert_ne, lookup_delete_eq by done. }
      destruct v; try done; cbn; by rewrite Hgone.
    - unfold _prepare_data, getitem. rewrite Hv.
      destruct v; try done; cbn; by rewrite Htr. }
  destruct to as [| | | |l];
    try (apply Hstep; eexists; split; [exact Hto|done]).
  destruct (list_to_commas l) as [s|e]; [|reflexivity].
  apply Hstep. eexists. split; [apply lookup_insert_eq|done].
Qed.

(** ** The dispatch boundary *)

Lemma send_notification_inv w data st res st' :
  _send_notification w data st = (res, st') ->
  exists r,
    try_body w data st = (r, st') /\
    res = match r with
          | Ok _ => Ok (create_response data None)
          | Raise e =>
              if isinstance e handled
              then Ok (create_response data (Some [exn_str e]))
              else Raise e
          end.
Proof.
  unfold _send_notification.
  destruct (try_body w data st) as [[[]|e] st1]; intros H.
  - exists (Ok tt). by simplify_eq.
  - exists (Raise e). destruct (isinstance e handled); by simplify_eq.
Qed.

Lemma connected_for_same_identity s d1 d2 :
  same_identity d1 d2 = true ->
  connected_for s d1 = connected_for s d2.
Proof.
  unfold same_identity, connected_for, must_connect.
  destruct (_get_configuration d1) as [c1|]; [|done].
  destruct (_get_configuration d2) as [c2|]; [|done].
  intros H12. destruct (configuration s) as [stored|]; [|done].
  destruct (smtp_server s); [|done].
  assert (configuration_eqb stored c1 = configuration_eqb stored c2) as ->;
    [|done].
  destruct (configuration_eqb stored c1) eqn:H1.
  - symmetry. by eapply configuration_eqb_trans.
  - destruct (configuration_eqb stored c2) eqn:H2; [|done].
    rewrite configuration_eqb_sym in H12.
    by rewrite (configuration_eqb_trans _ _ _ H2 H12) in H1.
Qed.

(** A dispatch on a session that serves the request touches neither the
    stored handle nor the stored identity and makes no session call. *)
Lemma reuse_spec w data st res st' :
  connected_for (self st) data = true ->
  _send_notification w data st = (res, st') ->
  self st' = self st /\
  Forall (fun ev => is_session_call (ev_call ev) = false) (emitted st st').
Proof.
  intros Hc H. apply send_notification_inv in H as (r & H & _).
  apply try_body_spec in H as (evs & Ht & _ & _ & Hr & _).
  rewrite (emitted_app _ _ _ Ht). by apply Hr.
Qed.




(** C9: an exception outside the closed set propagates out of
    [_send_notification], whether a collaborator raised it or the body
    itself; it never ends up in a Response. *)
Theorem unknown_exception_propagates w data st res st' :
  _send_notification w data st = (res, st') ->
  (forall e, try_body w data st = (Raise e, st') ->
     isinstance e handled = false -> res = Raise e) /\
  (forall ev e, ev ∈ emitted st st' -> ev_exn ev = Some e ->
     isinstance e handled = false -> res = Raise e).
Proof.
  intros H. apply send_notification_inv in H as (r & H & ->). split.
  - intros e He Hi. rewrite H in He. simplify_eq. by rewrite Hi.
  - apply try_body_spec in H
      as (evs & Ht & _ & _ & _ & _ & _ & Hd & _).
    rewrite (emitted_app _ _ _ Ht).
    intros ev e Hin Hex Hi. destruct (Hd _ _ Hin Hex) as [-> _].
    by rewrite Hi.
Qed.

Lemma unknown_exception_propagates_witness :
  (_send_notification faulty_world merged_request init_state).1 =
  Raise (mk_exn ValueError "embedded null byte").
Proof.
  exact (proj1
    (unknown_exception_propagates faulty_world merged_request init_state
       _ _ eq_refl) _ eq_refl eq_refl).
Defined.

(** ** The session across dispatches *)


Lemma disconnected_not_connected s data :
  configuration s = None -> connected_for s data = false.
Proof.
  unfold connected_for, must_connect. intros ->.
  by destruct (_get_configuration data).
Qed.

(** C8: when transmission fails (the remote rejects the payload), the
    stored handle is the one the message was sent on and the stored identity
    still serves the request; a reused session is left exactly as it was;
    and the next dispatch with an equal identity reuses the connection. *)
Theorem send_failure_keeps_session w data st res st' srv em e :
  _send_notification w data st = (res, st') ->
  last (emitted st st') = Some (mk_event (SendMessage srv em) (Some e)) ->
  smtp_server (self st') = Some srv /\
  connected_for (self st') data = true /\
  (connected_for (self st) data = true -> self st' = self st) /\
  (isinstance e handled = true ->
   res = Ok (create_response data (Some [exn_str e]))) /\
  (forall data2 res2 st2,
     same_identity data data2 = true ->
     _send_notification w data2 st' = (res2, st2) ->
     self st2 = self st' /\
     Forall (fun ev => is_session_call (ev_call ev) = false) (emitted st' st2)).
Proof.
  intros H Hl. apply send_notification_inv in H as (r & H & ->).
  apply try_body_spec in H
    as (evs & Ht & _ & _ & Hr & _ & _ & Hd & Hf & Hs & _).
  rewrite (emitted_app _ _ _ Ht) in Hl.
  pose proof (Hf _ _ Hl) as Hconn. cbn in Hconn.
  pose proof (last_elem_of _ _ Hl) as Hin.
  destruct (Hs _ Hin eq_refl) as (_ & srv' & em' & Hev & Hsrv).
  cbn in Hev. simplify_eq. split_and!.
  - done.
  - done.
  - intros Hc. by apply Hr.
  - intros Hi. destruct (Hd _ _ Hin eq_refl) as [-> _]. by rewrite Hi.
  - intros data2 res2 st2 Hsame H2. eapply reuse_spec; [|exact H2].
    by rewrite <- (connected_for_same_identity _ _ _ Hsame).
Qed.

Lemma send_failure_keeps_session_witness :
  self (dispatches refusing_world [merged_request] init_state) =
    mk_SMTP (Some (mk_client 0 false))
            (Some (VStr "localhost", VInt 25, VStr "u")) /\
  count_calls is_session_call
    (emitted (dispatches refusing_world [merged_request] init_state)
       (dispatches refusing_world [merged_request; merged_request]
          init_state)) = 0%nat.
Proof.
  pose proof (send_failure_keeps_session refusing_world merged_request
                init_state _ _ _ _ _ eq_refl eq_refl) as (_ & _ & _ & _ & H).
  split; [reflexivity|].
  destruct (H merged_request _ _ eq_refl eq_refl) as [_ Hcalls].
  apply count_calls_none. exact Hcalls.
Defined.

(** C2 (as amended): a failed dispatch resets nothing.  When the failing
    call is [connect], the stored identity is what it was before the call
    (so a provider without an identity still has none and the next dispatch
    connects again); when it is the upgrade, the authentication, a file read
    or the transmission, the handle and the request's identity stay stored,
    and the next dispatch with an equal identity reuses the handle without
    connecting or authenticating. *)
Theorem failed_dispatch_session_state w data st res st' c e :
  _send_notification w data st = (res, st') ->
  last (emitted st st') = Some (mk_event c (Some e)) ->
  (is_connect c = true ->
   configuration (self st') = configuration (self st) /\
   (configuration (self st) = None ->
    forall data2 res2 st2,
      connect_keys data2 = true ->
      _send_notification w data2 st' = (res2, st2) ->
      count_calls is_connect (emitted st' st2) = 1%nat)) /\
  (is_connect c = false ->
   connected_for (self st') data = true /\
   forall data2 res2 st2,
     same_identity data data2 = true ->
     _send_notification w data2 st' = (res2, st2) ->
     self st2 = self st' /\
     Forall (fun ev => is_session_call (ev_call ev) = false) (emitted st' st2)).
Proof.
  intros H Hl. apply send_notification_inv in H as (r & H & ->).
  apply try_body_spec in H as (evs & Ht & _ & _ & _ & _ & _ & _ & Hf & _).
  rewrite (emitted_app _ _ _ Ht) in Hl.
  pose proof (Hf _ _ Hl) as Hcase. split.
  - intros Hc. rewrite Hc in Hcase. split; [done|].
    intros Hnone data2 res2 st2 Hk H2.
    apply send_notification_inv in H2 as (r2 & H2 & _).
    apply try_body_spec in H2 as (evs2 & Ht2 & _ & _ & _ & Hone & _).
    rewrite (emitted_app _ _ _ Ht2). apply Hone; [|by left].
    apply disconnected_not_connected. congruence.
  - intros Hc. rewrite Hc in Hcase. split; [done|].
    intros data2 res2 st2 Hsame H2. eapply reuse_spec; [|exact H2].
    by rewrite <- (connected_for_same_identity _ _ _ Hsame).
Qed.

Lemma failed_dispatch_session_state_witness :
  connected_for (dispatches rejecting_world [merged_request] init_state).(self)
    merged_request = true /\
  Forall (fun ev => is_session_call (ev_call ev) = false)
    (emitted (dispatches rejecting_world [merged_request] init_state)
       (dispatches rejecting_world [merged_request; merged_request]
          init_state)).
Proof.
  destruct (proj2 (failed_dispatch_session_state rejecting_world
                     merged_request init_state _ _ _ _ eq_refl eq_refl)
              eq_refl) as [Hc H].
  split; [exact Hc|].
  exact (proj2 (H merged_request _ _ eq_refl eq_refl)).
Defined.

(** C2 as stated fails: after a rejected authentication the handle and the
    identity are still stored, and the next dispatch with the same identity
    neither connects nor authenticates; it goes straight to transmission. *)
Lemma rejected_login_keeps_session :
  (_send_notification rejecting_world merged_request init_state).1 =
    Ok (create_response merged_request (Some ["(535, b'rejected')"])) /\
  self (dispatches rejecting_world [merged_request] init_state) =
    mk_SMTP (Some (mk_client 0 false))
            (Some (VStr "localhost", VInt 25, VStr "u")) /\
  map (fun ev => is_session_call (ev_call ev))
    (emitted (dispatches rejecting_world [merged_request] init_state)
       (dispatches rejecting_world [merged_request; merged_request]
          init_state)) = [false] /\
  count_calls is_send
    (emitted (dispatches rejecting_world [merged_request] init_state)
       (dispatches rejecting_world [merged_request; merged_request]
          init_state)) = 1%nat.
Proof. split_and!; reflexivity. Qed.



(** C10: two requests that differ only in the password have the same
    Session Identity, hence the same reuse decision on any provider state;
    on a session that serves the one, dispatching the other makes no session
    call at all, so the other password is never used to authenticate. *)
Theorem reuse_ignores_password w d1 d2 st :
  (forall k, k <> "password" -> d1 !! k = d2 !! k) ->
  _get_configuration d1 = _get_configuration d2 /\
  (forall cfg1 cfg2,
     _get_configuration d1 = Ok cfg1 -> _get_configuration d2 = Ok cfg2 ->
     must_connect (self st) cfg1 = must_connect (self st) cfg2) /\
  connected_for (self st) d1 = connected_for (self st) d2 /\
  (connected_for (self st) d1 = true ->
   forall res st',
     _send_notification w d2 st = (res, st') ->
     self st' = self st /\
     Forall (fun ev => is_session_call (ev_call ev) = false) (emitted st st')).
Proof.
  intros Hsame.
  assert (_get_configuration d1 = _get_configuration d2) as Hcfg.
  { unfold _get_configuration, getitem, dict_get.
    by rewrite !Hsame by done. }
  assert (connected_for (self st) d1 = connected_for (self st) d2) as Hconn
    by (unfold connected_for; by rewrite Hcfg).
  split_and!.
  - done.
  - intros cfg1 cfg2 H1 H2. rewrite Hcfg in H1. congruence.
  - done.
  - intros Hc res st' H. eapply reuse_spec; [|exact H]. by rewrite <- Hconn.
Qed.

Lemma reuse_ignores_password_witness :
  count_calls is_session_call
    (emitted (dispatches quiet_world [merged_request] init_state)
       (dispatches quiet_world [merged_request; other_password_request]
          init_state)) = 0%nat.
Proof.
  apply count_calls_none.
  refine (proj2 (proj2 (proj2 (proj2
    (reuse_ignores_password quiet_world merged_request other_password_request
       (dispatches quiet_world [merged_request] init_state) _)))
    eq_refl _ _ eq_refl)).
  intros k Hk. unfold other_password_request. by rewrite lookup_insert_ne.
Defined.




(** ** Encryption before authentication *)

(** C5: [_connect_to_server] makes all its calls on one new client object,
    which is an implicitly encrypted one exactly when [ssl] is set; with
    [ssl] set no upgrade handshake is issued; without [ssl] and with [tls]
    set, [ehlo] follows a successful [connect], [starttls] follows a
    successful [ehlo], and every authentication call comes after the three
    of them succeeded, in that order. *)
Theorem connect_encryption_order w data st r st' ssl :
  data !! "ssl" = Some ssl ->
  _connect_to_server w data st = (r, st') ->
  smtp_server (self st') = Some (mk_client (created st) (truthy ssl)) /\
  Forall (fun ev => call_client (ev_call ev) =
                    Some (mk_client (created st) (truthy ssl)))
    (emitted st st') /\
  (forall ev, emitted st st' !! 0%nat = Some ev ->
              is_connect (ev_call ev) = true) /\
  (truthy ssl = true ->
   Forall (fun ev => is_upgrade (ev_call ev) = false) (emitted st st')) /\
  (truthy (dict_get data "tls") = false ->
   Forall (fun ev => is_upgrade (ev_call ev) = false) (emitted st st')) /\
  (truthy ssl = false -> truthy (dict_get data "tls") = true ->
   (forall ev, emitted st st' !! 0%nat = Some ev -> ev_exn ev = None ->
      exists ev1, emitted st st' !! 1%nat = Some ev1 /\
                  ev_call ev1 = Ehlo (mk_client (created st) false)) /\
   (forall ev, emitted st st' !! 1%nat = Some ev -> ev_exn ev = None ->
      exists ev2, emitted st st' !! 2%nat = Some ev2 /\
                  ev_call ev2 = Starttls (mk_client (created st) false)) /\
   (forall i ev, emitted st st' !! i = Some ev ->
      is_login (ev_call ev) = true ->
      exists host port,
        take i (emitted st st') =
          [mk_event (Connect (mk_client (created st) false) host port) None;
           mk_event (Ehlo (mk_client (created st) false)) None;
           mk_event (Starttls (mk_client (created st) false)) None])).
Proof.
  intros Hssl H. unfold _connect_to_server in H. inv_run.
  all: try congruence.
  all: repeat match goal with
       | H1 : ?m !! ?k = Some ?x, H2 : ?m !! ?k = Some ?y |- _ =>
           assert (y = x) by congruence; subst y; clear H2
       end.
  all: erewrite !(emitted_app _ _ _)
         by (cbn [trace]; rewrite <- ?app_assoc; cbn [app];
             first [reflexivity | symmetry; apply app_nil_r]).
  all: unfold dict_get;
       repeat match goal with
       | H : _ !! _ = Some _ |- _ => rewrite H
       | H : _ !! _ = None |- _ => rewrite H
       end; cbn [default].
  all: split_and!; [reflexivity | repeat constructor | ..].
  all: try (intros; repeat constructor; done).
  all: try (intros ev Hev; cbn in Hev; by simplify_eq).
  all: try (intros Hs; destruct (truthy ssl) eqn:?; cbn in *; congruence).
  all: try (intros Hs Ht; cbn in *; congruence).
  all: intros Hs Ht; rewrite ?Hs; split_and!.
  all: try (intros ev Hev Hex; cbn in Hev; simplify_eq; cbn in *;
            first [congruence | eexists; split; reflexivity]).
  all: intros i ev Hev Hlog;
       repeat (destruct i as [|i]; cbn in Hev; simplify_eq; cbn in Hlog;
               try discriminate);
       try (by eexists _, _).
Qed.

Lemma connect_encryption_order_witness :
  tls_request !! "ssl" = Some (VBool false) /\
  exists host port,
    take 3 (emitted init_state
              (_connect_to_server quiet_world tls_request init_state).2) =
      [mk_event (Connect (mk_client 0 false) host port) None;
       mk_event (Ehlo (mk_client 0 false)) None;
       mk_event (Starttls (mk_client 0 false)) None].
Proof.
  split; [reflexivity|].
  destruct (connect_encryption_order quiet_world tls_request init_state
              _ _ (VBool false) eq_refl eq_refl)
    as (_ & _ & _ & _ & _ & H).
  destruct (H eq_refl eq_refl) as (_ & _ & Hlogin).
  exact (Hlogin 3%nat
           (mk_event (Login (mk_client 0 false) (VStr "u") (VStr "p")) None)
           eq_refl eq_refl).
Defined.

(** * Further properties of the provider *)

(** ** The [except] clause *)

(** X1: the six classes named by the [except] clause catch exactly the
    [OSError] family: an exception is handled if and only if its class
    derives from [OSError], so every [smtplib] exception is handled, also
    those the clause does not name. *)
Theorem handled_is_OSError_family e :
  isinstance e handled = issubclass (exn_class e) OSError.
Proof. destruct e as [c s]. by destruct c. Qed.

(** ** Missing keys *)

(** X2: a request without [host] or without [port] makes
    [_send_notification] raise the [KeyError] of [_get_configuration]: no
    collaborator is called and the provider is left as it was. *)
Theorem missing_identity_key_escapes w data st :
  data !! "host" = None \/ data !! "port" = None ->
  exists k,
    (k = "host" \/ k = "port") /\ data !! k = None /\
    _send_notification w data st = (Raise (key_error k), st).
Proof.
  intros Hmiss. unfold _send_notification. rewrite try_body_unfold.
  unfold bind, lift, _get_configuration, getitem.
  destruct (data !! "host") as [h|] eqn:Hh.
  - destruct Hmiss as [?|Hp]; [done|]. rewrite Hp. cbn.
    exists "port". by eauto.
  - cbn. exists "host". by eauto.
Qed.

Lemma missing_identity_key_escapes_witness :
  exists k,
    (k = "host" \/ k = "port") /\
    (delete "host" merged_request) !! k = None /\
    _send_notification quiet_world (delete "host" merged_request) init_state =
      (Raise (key_error k), init_state).
Proof.
  apply (missing_identity_key_escapes quiet_world
           (delete "host" merged_request) init_state).
  left. reflexivity.
Defined.

(** ** Normalization and the session identity *)

(** X3: [_prepare_data] touches the keys [to], [from] and [from_] only, so
    the Session Identity of the normalized request, and with it the reuse
    decision on any provider, is that of the request it was given. *)
Theorem prepare_data_frame data d' :
  _prepare_data data = Ok d' ->
  (forall k, k <> "to" -> k <> "from" -> k <> "from_" ->
             d' !! k = data !! k) /\
  _get_configuration d' = _get_configuration data /\
  (forall s, connected_for s d' = connected_for s data).
Proof.
  intros H.
  assert (forall k, k <> "to" -> k <> "from" -> k <> "from_" ->
                    d' !! k = data !! k) as Hframe.
  { unfold _prepare_data, getitem in H.
    destruct (data !! "to") as [to|]; [|done].
    assert (exists d1, (forall k, k <> "to" -> d1 !! k = data !! k) /\
              (if truthy (dict_get d1 "from_")
               then Ok (<["from" := dict_get d1 "from_"]> (delete "from_" d1))
               else Ok d1) = Ok d') as (d1 & Hd1 & Hd').
    { destruct to as [| | | |l]; try by (exists data).
      destruct (list_to_commas l) as [s|]; [|done].
      exists (<["to" := VStr s]> data). split; [|done].
      intros k Hk. by rewrite lookup_insert_ne. }
    intros k Hto Hfrom Hfrom_.
    destruct (truthy (dict_get d1 "from_")); simplify_eq.
    - rewrite lookup_insert_ne, lookup_delete_ne by done. by apply Hd1.
    - by apply Hd1. }
  assert (_get_configuration d' = _get_configuration data) as Hcfg.
  { unfold _get_configuration, getitem, dict_get.
    by rewrite !Hframe by done. }
  split_and!; [done|done|].
  intros s. unfold connected_for. by rewrite Hcfg.
Qed.

Lemma prepare_data_frame_witness :
  exists d',
    _prepare_data alias_request = Ok d' /\
    _get_configuration d' = _get_configuration alias_request.
Proof.
  eexists. split; [reflexivity|].
  exact (proj1 (proj2 (prepare_data_frame alias_request _ eq_refl))).
Defined.

(** ** The payload *)

(** X4: [_build_email] calls no collaborator and leaves the provider as it
    is.  It returns an email exactly when the five keys it reads are present
    and the [email] library takes the values of [to], [from] and [subject]
    as headers and that of [message] as the body.  The headers and the body
    are then what the library keeps of these values, the content type
    follows the truth value of [html], the date is that of [formatdate] and
    no file is attached.  Otherwise it raises the [KeyError] of a key that
    is missing or the exception of the library. *)
Theorem build_email_result w data st r st' :
  _build_email w data st = (r, st') ->
  st' = st /\
  match r with
  | Ok email =>
      Forall (fun k => is_Some (data !! k)) build_keys /\
      header w "To" (dict_get data "to") = Ok (email_To email) /\
      header w "From" (dict_get data "from") = Ok (email_From email) /\
      header w "Subject" (dict_get data "subject") =
        Ok (email_Subject email) /\
      alternative w (dict_get data "message") (subtype_of data) =
        Ok (email_body email) /\
      email_subtype email = subtype_of data /\
      email_Date email = formatdate w /\
      email_parts email = []
  | Raise e =>
      (exists k, k ∈ build_keys /\ data !! k = None /\ e = key_error k) \/
      refused w data e
  end /\
  (Forall (fun k => is_Some (data !! k)) build_keys ->
   accepted w data = true -> exists email, r = Ok email).
Proof.
  intros H.
  assert (st' = st /\
          match r with
          | Ok email =>
              Forall (fun k => is_Some (data !! k)) build_keys /\
              header w "To" (dict_get data "to") = Ok (email_To email) /\
              header w "From" (dict_get data "from") =
                Ok (email_From email) /\
              header w "Subject" (dict_get data "subject") =
                Ok (email_Subject email) /\
              alternative w (dict_get data "message") (subtype_of data) =
                Ok (email_body email) /\
              email_subtype email = subtype_of data /\
              email_Date email = formatdate w /\
              email_parts email = []
          | Raise e =>
              (exists k, k ∈ build_keys /\ data !! k = None /\
                         e = key_error k) \/
              refused w data e
          end) as [-> Hr].
  { unfold _build_email in H. inv_run.
    all: split; [reflexivity|]; cbn.
    all: try (left; eexists; split_and!; [|eassumption|reflexivity];
              unfold build_keys; set_solver).
    all: unfold refused, subtype_of, dict_get;
      repeat match goal with
      | H : _ !! _ = Some _ |- _ => rewrite H
      end; cbn [default from_option id]; try tauto.
    split_and!; try done. unfold build_keys.
    repeat constructor; by eexists. }
  split_and!; [done|done|].
  intros Hkeys Hacc. destruct r as [email|e]; [by eauto|].
  destruct Hr as [(k & Hk & Hnone & _)|Href].
  - rewrite Forall_forall in Hkeys. specialize (Hkeys _ Hk).
    rewrite Hnone in Hkeys. by destruct Hkeys.
  - destruct (accepted_not_refused _ _ _ Hacc Href).
Qed.

Lemma build_email_result_witness :
  exists email,
    _build_email quiet_world merged_request init_state =
      (Ok email, init_state) /\
    header quiet_world "To" (dict_get merged_request "to") =
      Ok (email_To email) /\
    email_subtype email = "plain".
Proof.
  eexists. split; [reflexivity|].
  pose proof (build_email_result quiet_world merged_request init_state
                _ _ eq_refl) as (_ & Hr & _).
  split; [exact (proj1 (proj2 Hr))|reflexivity].
Defined.

(** X5: normalization followed by payload construction: for a request with
    a sequence of recipients and a non-empty alias [from_], the value given
    to the [To] header is the joined sequence and the value given to the
    [From] header is the alias, whatever [from] was; when the [email]
    library takes them, the subject and the body, the email is built and
    carries what the library keeps of the two as [To] and [From]. *)
Theorem normalized_headers w data st l joined alias subject message html
    hto hfrom hsubject body :
  data !! "to" = Some (VList l) -> list_to_commas l = Ok joined ->
  data !! "from_" = Some (VStr alias) -> alias <> "" ->
  data !! "subject" = Some subject -> data !! "message" = Some message ->
  data !! "html" = Some html ->
  header w "To" (VStr joined) = Ok hto ->
  header w "From" (VStr alias) = Ok hfrom ->
  header w "Subject" subject = Ok hsubject ->
  alternative w message (if truthy html then "html" else "plain") = Ok body ->
  exists d' email,
    _prepare_data data = Ok d' /\
    _build_email w d' st = (Ok email, st) /\
    email_To email = hto /\ email_From email = hfrom.
Proof.
  intros Hto Hj Hfrom Hne Hsubj Hmsg Hhtml Hhto Hhfrom Hhs Hbody.
  assert (truthy (VStr alias) = true) as Htr.
  { cbn. destruct (String.eqb_spec alias ""); [done|reflexivity]. }
  eexists _, _. split_and!.
  - unfold _prepare_data, getitem. rewrite Hto, Hj. cbn.
    unfold dict_get. rewrite lookup_insert_ne, Hfrom by done. cbn.
    cbn in Htr. rewrite Htr. reflexivity.
  - unfold _build_email, bind, lift, getitem, ret.
    rewrite lookup_insert_ne, lookup_delete_ne, lookup_insert_eq by done.
    rewrite Hhto. rewrite lookup_insert_eq. rewrite Hhfrom.
    rewrite !lookup_insert_ne, !lookup_delete_ne, !lookup_insert_ne by done.
    rewrite Hsubj, Hhs, Hhtml, Hmsg, Hbody. reflexivity.
  - reflexivity.
  - reflexivity.
Qed.

Lemma normalized_headers_witness :
  exists d' email,
    _prepare_data aliased_message_request = Ok d' /\
    _build_email quiet_world d' init_state = (Ok email, init_state) /\
    email_To email = "a@x.com,b@x.com" /\ email_From email = "c@x.com".
Proof.
  apply (normalized_headers quiet_world aliased_message_request init_state
           [VStr "a@x.com"; VStr "b@x.com"] "a@x.com,b@x.com" "c@x.com"
           (VStr "s") (VStr "m") (VBool false) _ _ "s" "m");
    try reflexivity.
  discriminate.
Defined.

(** ** Attachments *)

Lemma attach_all_ok w l email st email' st' :
  attach_all w l email st = (Ok email', st') ->
  exists paths,
    l = map VStr paths /\
    st' = mk_state (self st) (created st) (trace st ++ reads paths) /\
    email' = with_parts email (email_parts email ++ attached w paths).
Proof.
  revert email st. induction l as [|a l IH]; intros email st H; cbn in H.
  - unfold ret in H. injection H as <- <-. exists []. cbn.
    rewrite !app_nil_r.
    split_and!; [done| by destruct st | by destruct email].
  - apply bind_inv in H as [(p & st1 & Hp & H)|(e & _ & ?)]; [|discriminate].
    apply as_str_inv in Hp as [-> [(p' & -> & Hp)|[_ ?]]]; [|discriminate].
    injection Hp as ->.
    apply bind_inv in H as [([] & st2 & Hc & H)|(e & _ & ?)]; [|discriminate].
    apply do_call_inv in Hc as (o & Ho & -> & Hr).
    destruct o as [e|]; [discriminate|].
    apply IH in H as (paths & -> & -> & ->). exists (p' :: paths). cbn.
    rewrite <- !app_assoc. done.
Qed.

Lemma attach_all_raise w l email st e st' :
  attach_all w l email st = (Raise e, st') ->
  exists paths rest,
    l = map VStr paths ++ rest /\
    ((exists p rest',
        rest = VStr p :: rest' /\
        outcome w (trace st ++ reads paths) (ReadBytes p) = Some e /\
        st' = mk_state (self st) (created st)
                (trace st ++ reads paths ++ [mk_event (ReadBytes p) (Some e)]))
     \/
     (exists v rest',
        rest = v :: rest' /\ is_str v = false /\ exn_class e = TypeError /\
        st' = mk_state (self st) (created st) (trace st ++ reads paths))).
Proof.
  revert email st. induction l as [|a l IH]; intros email st H; cbn in H.
  - unfold ret in H. discriminate.
  - apply bind_inv in H as [(p & st1 & Hp & H)|(e' & Hp & He)].
    + apply as_str_inv in Hp as [-> [(p' & -> & Hp)|[_ ?]]]; [|discriminate].
      injection Hp as ->.
      apply bind_inv in H as [([] & st2 & Hc & H)|(e' & Hc & He)].
      * apply do_call_inv in Hc as (o & Ho & -> & Hr).
        destruct o as [e'|]; [discriminate|].
        apply IH in H as (paths & rest & -> & Hcase).
        exists (p' :: paths), rest. split; [done|]. cbn in Hcase.
        destruct Hcase as [(p & rest' & -> & Hraise & ->)
                          |(v & rest' & -> & Hv & Hcl & ->)].
        -- left. exists p, rest'. cbn. rewrite <- !app_assoc in *. done.
        -- right. exists v, rest'. cbn. rewrite <- !app_assoc. done.
      * apply do_call_inv in Hc as (o & Ho & Hst & Hr).
        injection He as <-.
        destruct o as [e'|]; [|discriminate]. injection Hr as ->.
        exists [], (VStr p' :: l). split; [done|]. left.
        exists p', l. cbn. rewrite app_nil_r. done.
    + apply as_str_inv in Hp as [-> [(p' & -> & ?)|[Hs Hr]]]; [discriminate|].
      injection He as ->. injection Hr as ->.
      exists [], (a :: l). split; [done|]. right.
      exists a, l. cbn. rewrite app_nil_r. split_and!; try done.
      by destruct st.
Qed.

Lemma iterate_inv v st r st' :
  iterate v st = (r, st') ->
  st' = st /\
  match v with
  | VList l => r = Ok l
  | VStr s => r = Ok (characters s)
  | _ => r = Raise (mk_exn TypeError "object is not iterable")
  end.
Proof. destruct v; cbn; unfold ret, raise; intros; by simplify_eq. Qed.

(** X6: when [_add_attachments] returns, every element of [attachments] is
    a path, each file was read once, in the order given, and the email
    carries one part per file, named by its path, after the parts it had;
    nothing else changed. *)
Theorem add_attachments_in_order w data email st email' st' :
  _add_attachments w data email st = (Ok email', st') ->
  exists paths,
    (data !! "attachments" = Some (VList (map VStr paths)) \/
     exists s, data !! "attachments" = Some (VStr s) /\
               characters s = map VStr paths) /\
    self st' = self st /\
    emitted st st' = reads paths /\
    email' = with_parts email (email_parts email ++ attached w paths).
Proof.
  intros H. unfold _add_attachments in H.
  apply bind_inv in H as [(v & st1 & Hv & H)|(e & _ & ?)]; [|done].
  apply lift_inv in Hv as [Hv ->]. symmetry in Hv. apply getitem_Ok in Hv.
  apply bind_inv in H as [(l & st1 & Hi & H)|(e & _ & ?)]; [|done].
  apply iterate_inv in Hi as [-> Hi].
  apply attach_all_ok in H as (paths & -> & -> & ->).
  exists paths. split_and!; try done.
  - destruct v; simplify_eq; [right|left]; by eauto.
  - by apply emitted_app.
Qed.

Lemma add_attachments_in_order_witness :
  exists paths,
    emitted init_state
      (_add_attachments quiet_world two_files_request
         (mk_email "" "" "" "" "" "" []) init_state).2 = reads paths /\
    mk_email "" "" "" "" "" "" [("a.txt", ""); ("b.txt", "")] =
      with_parts (mk_email "" "" "" "" "" "" [])
        ([] ++ attached quiet_world paths).
Proof.
  destruct (add_attachments_in_order quiet_world two_files_request
              (mk_email "" "" "" "" "" "" []) init_state _ _ eq_refl)
    as (paths & _ & _ & Hev & Hemail).
  exists paths. split; [exact Hev|exact Hemail].
Defined.




Lemma characters_elem v s :
  v ∈ characters s -> exists a, v = VStr (String a EmptyString).
Proof.
  unfold characters. intros H. apply list_elem_of_fmap in H as (a & -> & _).
  by exists a.
Qed.

(** X8: when [attachments] is one string rather than a list, the loop of
    [_add_attachments] runs over its characters: every file it reads is
    named by a single character of the string, and when it returns it has
    read one file per character, in order. *)
Theorem scalar_attachment_by_character w data email st s r st' :
  data !! "attachments" = Some (VStr s) ->
  _add_attachments w data email st = (r, st') ->
  Forall (fun ev => exists a, ev_call ev = ReadBytes (String a EmptyString))
    (emitted st st') /\
  (forall email', r = Ok email' ->
     map ev_call (emitted st st') =
       map (fun a => ReadBytes (String a EmptyString))
         (list_ascii_of_string s)).
Proof.
  intros Ha H. unfold _add_attachments, getitem in H. rewrite Ha in H.
  cbn in H. fold (characters s) in H. destruct r as [email'|e].
  - apply attach_all_ok in H as (paths & Hl & -> & _).
    rewrite (emitted_app _ _ (reads paths)) by done.
    assert (map ev_call (reads paths) =
            map (fun a => ReadBytes (String a EmptyString))
              (list_ascii_of_string s)) as Hcalls.
    { unfold reads. rewrite map_map. cbn.
      unfold characters in Hl. revert paths Hl.
      induction (list_ascii_of_string s) as [|a l IH];
        intros [|p paths] Hl; try discriminate; [done|].
      cbn in Hl. injection Hl as <- Hl. cbn. f_equal. by apply IH. }
    split; [|done].
    apply Forall_forall. intros ev Hin.
    assert (ev_call ev ∈ map ev_call (reads paths)) as Hc
      by (by apply list_elem_of_fmap_2).
    rewrite Hcalls in Hc. apply list_elem_of_fmap in Hc as (a & -> & _).
    by eauto.
  - split; [|discriminate].
    apply attach_all_raise in H as (before & rest & Hl & Hcase).
    assert (forall p, VStr p ∈ characters s ->
                      exists a, ReadBytes p = ReadBytes (String a EmptyString))
      as Hchar.
    { intros p Hp. apply characters_elem in Hp as [a Hp].
      injection Hp as ->. by eauto. }
    assert (Forall (fun ev => exists a,
                      ev_call ev = ReadBytes (String a EmptyString))
              (reads before)) as Hbefore.
    { apply Forall_forall. intros ev Hin. unfold reads in Hin.
      apply list_elem_of_fmap in Hin as (p & -> & Hp). cbn. apply Hchar.
      rewrite Hl. apply elem_of_app. left. by apply list_elem_of_fmap_2. }
    destruct Hcase as [(p & rest' & -> & _ & ->)|(v & rest' & -> & _ & _ & ->)].
    + rewrite (emitted_app _ _
                 (reads before ++ [mk_event (ReadBytes p) (Some e)])) by done.
      apply Forall_app. split; [done|]. constructor; [|constructor]. cbn.
      apply Hchar. rewrite Hl. apply elem_of_app. right. by left.
    + by rewrite (emitted_app _ _ (reads before)).
Qed.

Lemma scalar_attachment_by_character_witness :
  map ev_call
    (emitted init_state
       (_add_attachments quiet_world scalar_attachment_request
          (mk_email "" "" "" "" "" "" []) init_state).2) =
  [ReadBytes "a"; ReadBytes "b"].
Proof.
  exact (proj2 (scalar_attachment_by_character quiet_world
                  scalar_attachment_request (mk_email "" "" "" "" "" "" [])
                  init_state "ab" _ _ eq_refl eq_refl) _ eq_refl).
Defined.

(** ** The calls of a dispatch *)

Lemma handshake_clients cl data :
  Forall (fun c => call_client c = Some cl) (handshake cl data).
Proof.
  unfold handshake.
  destruct (truthy (dict_get data "tls") && negb (truthy (dict_get data "ssl")));
    destruct (truthy (dict_get data "username")); by repeat constructor.
Qed.

Ltac connect_case n :=
  exists n; eexists;
  split; [rewrite <- ?app_assoc; cbn [app];
          first [reflexivity | symmetry; apply app_nil_r]|];
  split; [reflexivity|];
  split; [first [discriminate | intros _; split; [reflexivity|by eauto]]|];
  intros c' e' Hl Hc; cbn in Hl; simplify_eq; cbn in Hc;
  first [discriminate | done].

Lemma connect_to_server_calls w data st r st' :
  _connect_to_server w data st = (r, st') ->
  (st' = st /\ exists e, r = Raise e) \/
  (created st' = S (created st) /\
   smtp_server (self st') = Some (next_client st data) /\
   exists n evs,
     trace st' = trace st ++ evs /\
     map ev_call evs = take n (handshake (next_client st data) data) /\
     (r = Ok tt ->
      evs = returned (handshake (next_client st data) data) /\
      exists cfg, _get_configuration data = Ok cfg /\
                  configuration (self st') = Some cfg) /\
     (forall c e, last evs = Some (mk_event c (Some e)) ->
        is_connect c = true ->
        evs = [mk_event c (Some e)] /\
        configuration (self st') = configuration (self st))).
Proof.
  intros H. unfold _connect_to_server in H. inv_run.
  all: try (left; split; [by destruct st|by eauto]).
  all: right; cbn [created self smtp_server].
  all: repeat match goal with
       | H1 : ?m !! ?k = Some ?x, H2 : ?m !! ?k = Some ?y |- _ =>
           assert (y = x) by congruence; subst y; clear H2
       end.
  all: unfold next_client, handshake, dict_get in *;
       repeat match goal with
       | H : _ !! _ = Some _ |- _ => rewrite H in *
       | H : _ !! _ = None |- _ => rewrite H in *
       end; cbn [from_option id] in *;
       repeat match goal with
       | H : truthy _ = _ |- _ => rewrite H in *
       | H : negb (truthy _) = _ |- _ => rewrite H in *
       end; cbn [andb app].
  all: split; [reflexivity|]; split; [reflexivity|].
  all: first [connect_case 0%nat | connect_case 1%nat | connect_case 2%nat
             | connect_case 3%nat | connect_case 4%nat].
Qed.

Lemma build_email_ok w data st email st' :
  _build_email w data st = (Ok email, st') ->
  st' = st /\ email_parts email = [] /\
  forall st0, _build_email w data st0 = (Ok email, st0).
Proof.
  intros H. unfold _build_email in H. inv_run.
  split_and!; [reflexivity|reflexivity|].
  intros st0. unfold _build_email, bind, lift, getitem, ret.
  repeat match goal with
  | H : _ !! _ = Some _ |- _ => rewrite H; clear H
  | H : header _ _ _ = Ok _ |- _ => rewrite H; clear H
  | H : alternative _ _ _ = Ok _ |- _ => rewrite H; clear H
  end.
  reflexivity.
Qed.

Lemma add_attachments_ok w data email st email' st' :
  _add_attachments w data email st = (Ok email', st') ->
  exists paths,
    (data !! "attachments" = Some (VList (map VStr paths)) \/
     exists s, data !! "attachments" = Some (VStr s) /\
               characters s = map VStr paths) /\
    st' = mk_state (self st) (created st) (trace st ++ reads paths) /\
    email' = with_parts email (email_parts email ++ attached w paths).
Proof.
  intros H. unfold _add_attachments in H.
  apply bind_inv in H as [(v & st1 & Hv & H)|(e & _ & ?)]; [|discriminate].
  apply lift_inv in Hv as [Hv ->]. symmetry in Hv. apply getitem_Ok in Hv.
  apply bind_inv in H as [(l & st1 & Hi & H)|(e & _ & ?)]; [|discriminate].
  apply iterate_inv in Hi as [-> Hi].
  apply attach_all_ok in H as (paths & -> & -> & ->).
  exists paths. split_and!; try done.
  destruct v; simplify_eq; [right|left]; by eauto.
Qed.

Lemma attach_all_created w l email st r st' :
  attach_all w l email st = (r, st') ->
  created st' = created st /\ self st' = self st.
Proof.
  destruct r as [email'|e]; intros H.
  - by apply attach_all_ok in H as (paths & _ & -> & _).
  - apply attach_all_raise in H as (before & rest & _ & Hcase).
    by destruct Hcase as [(p & rest' & _ & _ & ->)|(v & rest' & _ & _ & _ & ->)].
Qed.

Lemma add_attachments_created w data email st r st' :
  _add_attachments w data email st = (r, st') -> created st' = created st.
Proof.
  intros H. unfold _add_attachments in H.
  apply bind_inv in H as [(v & st1 & Hv & H)|(e & Hv & _)];
    apply lift_inv in Hv as [_ ->]; [|done].
  apply bind_inv in H as [(l & st1 & Hi & H)|(e & Hi & _)];
    apply iterate_inv in Hi as [-> _]; [|done].
  by apply attach_all_created in H as [? _].
Qed.

Lemma deliver_created w data st r st' :
  deliver w data st = (r, st') -> created st' = created st.
Proof.
  intros H. unfold deliver in H.
  apply bind_inv in H as [(em & st1 & Hb & H)|(e & Hb & _)];
    apply build_email_spec in Hb as [-> _]; [|done].
  apply bind_inv in H as [(em' & st2 & Ha & H)|(e & Ha & _)].
  - assert (created st2 = created st) as <-.
    { destruct (truthy (dict_get data "attachments")).
      - by apply add_attachments_created in Ha.
      - unfold ret in Ha. by injection Ha as _ <-. }
    apply bind_inv in H as [(srv & st3 & Hs & H)|(e & Hs & _)];
      unfold the_smtp_server in Hs; destruct (smtp_server (self st2));
      try discriminate.
    + injection Hs as _ <-. by apply do_call_inv in H as (o & _ & -> & _).
    + by injection Hs as _ <-.
  - destruct (truthy (dict_get data "attachments")).
    + by apply add_attachments_created in Ha.
    + unfold ret in Ha. discriminate.
Qed.

Lemma deliver_ok w data st st' :
  deliver w data st = (Ok tt, st') ->
  exists email paths cl,
    (forall st0, _build_email w data st0 = (Ok email, st0)) /\
    attachment_paths data paths /\
    smtp_server (self st) = Some cl /\
    st' = mk_state (self st) (created st)
            (trace st ++ reads paths ++
             [mk_event (SendMessage cl (with_parts email (attached w paths)))
                None]).
Proof.
  intros H. unfold deliver in H.
  apply bind_inv in H as [(em & st1 & Hb & H)|(e & _ & ?)]; [|discriminate].
  apply build_email_ok in Hb as (-> & Hparts & Hb).
  apply bind_inv in H as [(em' & st2 & Ha & H)|(e & _ & ?)]; [|discriminate].
  assert (exists paths,
            attachment_paths data paths /\
            st2 = mk_state (self st) (created st) (trace st ++ reads paths) /\
            em' = with_parts em (attached w paths)) as (paths & Hp & -> & ->).
  { unfold attachment_paths.
    destruct (truthy (dict_get data "attachments")).
    - apply add_attachments_ok in Ha as (paths & Hp & -> & ->).
      exists paths. by rewrite Hparts.
    - unfold ret in Ha. injection Ha as <- <-. exists []. cbn.
      rewrite app_nil_r. split_and!; [done|by destruct st|].
      destruct em. cbn in Hparts. by subst. }
  apply bind_inv in H as [(srv & st3 & Hs & H)|(e & _ & ?)]; [|discriminate].
  unfold the_smtp_server in Hs. cbn in Hs.
  destruct (smtp_server (self st)) as [cl|] eqn:Hcl; [|discriminate].
  injection Hs as <- <-.
  apply do_call_inv in H as (o & Ho & -> & Hr).
  destruct o; [discriminate|].
  exists em, paths, cl. cbn. rewrite <- app_assoc. done.
Qed.

Lemma try_body_ok w data st st' :
  try_body w data st = (Ok tt, st') ->
  exists email paths cl,
    (forall st0, _build_email w data st0 = (Ok email, st0)) /\
    attachment_paths data paths /\
    smtp_server (self st') = Some cl /\
    (if connected_for (self st) data
     then self st' = self st /\ created st' = created st
     else cl = next_client st data /\ created st' = S (created st)) /\
    emitted st st' =
      (if connected_for (self st) data then []
       else returned (handshake cl data)) ++
      reads paths ++
      [mk_event (SendMessage cl (with_parts email (attached w paths))) None].
Proof.
  rewrite try_body_unfold. intros H.
  apply bind_inv in H as [(cfg & st0 & Hc & H)|(e & _ & ?)]; [|discriminate].
  apply lift_inv in Hc as [Hc ->]. symmetry in Hc.
  apply bind_inv in H as [(s & st1 & Hs & H)|(e & _ & ?)]; [|discriminate].
  unfold get_self in Hs. injection Hs as <- <-.
  rewrite (connected_for_alt _ _ _ Hc).
  destruct (must_connect (self st) cfg) eqn:Hmc; cbn [negb].
  - apply bind_inv in H as [([] & st1 & Hconn & H)|(e & _ & ?)];
      [|discriminate].
    apply connect_to_server_calls in Hconn
      as [[_ [e ?]]|(Hcr & Hsrv & n & evs & Ht & _ & Hok & _)];
      [discriminate|].
    destruct (Hok eq_refl) as [-> _].
    apply deliver_ok in H as (email & paths & cl & Hb & Hp & Hcl & ->).
    rewrite Hsrv in Hcl. injection Hcl as <-.
    exists email, paths, (next_client st data). cbn.
    split_and!; try done.
    apply emitted_app. cbn. rewrite Ht. by rewrite <- app_assoc.
  - apply bind_inv in H as [([] & st1 & Hr & H)|(e & _ & ?)];
      [|discriminate].
    unfold ret in Hr. injection Hr as <-.
    apply deliver_ok in H as (email & paths & cl & Hb & Hp & Hcl & ->).
    exists email, paths, cl. cbn. split_and!; try done.
    by apply emitted_app.
Qed.

(** X9: a dispatch that reports success made exactly these calls, in this
    order: the complete handshake on a new client when the stored session
    does not serve the request, and no session call otherwise; one read per
    attachment; and, last, one [send_message] on the stored handle, whose
    payload is the email [_build_email] makes of the request with one part
    per attachment. *)
Theorem successful_dispatch_calls w data st rsp st' :
  _send_notification w data st = (Ok rsp, st') -> rsp_errors rsp = None ->
  exists email paths cl,
    (_build_email w data st).1 = Ok email /\
    attachment_paths data paths /\
    smtp_server (self st') = Some cl /\
    emitted st st' =
      (if connected_for (self st) data then []
       else returned (handshake cl data)) ++
      reads paths ++
      [mk_event (SendMessage cl (with_parts email (attached w paths))) None].
Proof.
  intros H Herr. apply send_notification_inv in H as (r & H & Hres).
  assert (r = Ok tt) as ->.
  { destruct r as [[]|e]; [done|].
    destruct (isinstance e handled); simplify_eq. }
  apply try_body_ok in H as (email & paths & cl & Hb & Hp & Hcl & _ & Hev).
  exists email, paths, cl. split_and!; try done. by rewrite Hb.
Qed.

Lemma successful_dispatch_calls_witness :
  exists email paths cl,
    emitted init_state
      (_send_notification quiet_world two_files_request init_state).2 =
      returned (handshake cl two_files_request) ++
      reads paths ++
      [mk_event
         (SendMessage cl (with_parts email (attached quiet_world paths)))
         None].
Proof.
  destruct (successful_dispatch_calls quiet_world two_files_request init_state
              _ _ eq_refl eq_refl) as (email & paths & cl & _ & _ & _ & Hev).
  exists email, paths, cl. exact Hev.
Defined.

(** ** Client objects *)

Lemma handshake_connect_first cl data j c :
  handshake cl data !! j = Some c -> is_connect c = true -> j = 0%nat.
Proof.
  intros Hj Hc. destruct j as [|j]; [done|]. exfalso.
  unfold handshake in Hj. cbn in Hj. apply list_elem_of_lookup_2 in Hj.
  apply elem_of_app in Hj as [Hj|Hj].
  - destruct (truthy (dict_get data "tls") &&
              negb (truthy (dict_get data "ssl")));
      in_cases Hj; discriminate.
  - destruct (truthy (dict_get data "username")); in_cases Hj; discriminate.
Qed.

Lemma prefix_calls_clients cl data n evs :
  map ev_call evs = take n (handshake cl data) ->
  Forall (fun ev => call_client (ev_call ev) = Some cl) evs /\
  (forall j ev, evs !! j = Some ev -> is_connect (ev_call ev) = true ->
                j = 0%nat).
Proof.
  intros Hevs. split.
  - apply Forall_forall. intros ev Hin.
    assert (ev_call ev ∈ take n (handshake cl data)) as Hc.
    { rewrite <- Hevs. by apply list_elem_of_fmap_2. }
    pose proof (handshake_clients cl data) as Hall.
    apply (Forall_take _ n) in Hall. rewrite Forall_forall in Hall.
    by apply Hall.
  - intros j ev Hj Hc.
    assert (take n (handshake cl data) !! j = Some (ev_call ev)) as Hj'.
    { rewrite <- Hevs. change (map ev_call evs) with (ev_call <$> evs).
      by rewrite list_lookup_fmap, Hj. }
    apply lookup_take_Some in Hj' as [Hj' _].
    by eapply handshake_connect_first.
Qed.

Lemma deliver_clients w data st r st' :
  deliver w data st = (r, st') ->
  self st' = self st /\
  exists evs,
    trace st' = trace st ++ evs /\
    Forall (fun ev => is_connect (ev_call ev) = false /\
                      forall cl, call_client (ev_call ev) = Some cl ->
                                 smtp_server (self st) = Some cl) evs.
Proof.
  intros H. apply deliver_spec in H as (Hs & evs & Ht & Hk & _ & Hsend & _).
  split; [done|]. exists evs. split; [done|].
  apply Forall_forall. intros ev Hin.
  rewrite Forall_forall in Hk. specialize (Hk _ Hin).
  split; [by apply not_session_not_connect|].
  intros cl Hcl. destruct (ev_call ev) eqn:Hcall; try discriminate.
  destruct (Hsend ev Hin) as (_ & srv & em & Hev & Hsrv);
    [by rewrite Hcall|].
  rewrite Hcall in Hev. cbn in Hcl. by simplify_eq.
Qed.

Lemma try_body_clients w data st r st' :
  try_body w data st = (r, st') ->
  exists evs,
    trace st' = trace st ++ evs /\
    ((created st' = created st /\ self st' = self st /\
      Forall (fun ev => is_connect (ev_call ev) = false /\
                        forall cl, call_client (ev_call ev) = Some cl ->
                                   smtp_server (self st) = Some cl) evs)
     \/
     (created st' = S (created st) /\
      smtp_server (self st') = Some (next_client st data) /\
      Forall (fun ev => forall cl, call_client (ev_call ev) = Some cl ->
                                   cl = next_client st data) evs /\
      (forall j ev, evs !! j = Some ev -> is_connect (ev_call ev) = true ->
                    j = 0%nat))).
Proof.
  rewrite try_body_unfold. intros H.
  apply bind_inv in H as [(cfg & st0 & Hc & H)|(e & Hc & ->)];
    apply lift_inv in Hc as [Hc ->].
  2:{ exists []. rewrite app_nil_r. split; [done|]. left. by split_and!. }
  apply bind_inv in H as [(s & st1 & Hs & H)|(e & Hs & ->)];
    unfold get_self in Hs; [injection Hs as <- <-|discriminate].
  destruct (must_connect (self st) cfg).
  - apply bind_inv in H as [([] & st1 & Hconn & H)|(e & Hconn & ->)];
      apply connect_to_server_calls in Hconn
        as [[Hst [e' ?]]|(Hcr & Hsrv & n & evs & Ht & Hcalls & _)];
      try discriminate.
    + pose proof (deliver_created _ _ _ _ _ H) as Hcd.
      apply deliver_clients in H as (Hsd & evs_d & Htd & Hd).
      apply prefix_calls_clients in Hcalls as [Hcl Hfirst].
      exists (evs ++ evs_d). rewrite Htd, Ht, <- app_assoc.
      split; [done|]. right. rewrite Hcd, Hsd. split_and!; try done.
      * apply Forall_app. split.
        -- eapply Forall_impl; [exact Hcl|]. cbn. intros ev Hev cl Hcl'.
           congruence.
        -- eapply Forall_impl; [exact Hd|]. cbn. intros ev [_ Hev] cl Hcl'.
           specialize (Hev _ Hcl'). congruence.
      * intros j ev Hj Hconn.
        destruct (decide (j < length evs)%nat) as [Hlt|Hge].
        -- rewrite lookup_app_l in Hj by done. by eapply Hfirst.
        -- rewrite lookup_app_r in Hj by lia.
           apply list_elem_of_lookup_2 in Hj.
           rewrite Forall_forall in Hd. destruct (Hd _ Hj) as [Hn _].
           congruence.
    + subst st'. exists []. rewrite app_nil_r. split; [done|]. left.
      by split_and!.
    + apply prefix_calls_clients in Hcalls as [Hcl Hfirst].
      exists evs. split; [done|]. right. split_and!; try done.
      eapply Forall_impl; [exact Hcl|]. cbn. intros ev Hev cl Hcl'.
      congruence.
  - apply bind_inv in H as [([] & st1 & Hr & H)|(e & Hr & ->)];
      unfold ret in Hr; [injection Hr as <-|discriminate].
    pose proof (deliver_created _ _ _ _ _ H) as Hcd.
    apply deliver_clients in H as (Hsd & evs_d & Htd & Hd).
    exists evs_d. split; [done|]. left. by split_and!.
Qed.

Lemma send_notification_clients w data st res st' :
  known_clients st -> _send_notification w data st = (res, st') ->
  known_clients st' /\
  exists evs,
    trace st' = trace st ++ evs /\
    forall j ev cl, evs !! j = Some ev -> is_connect (ev_call ev) = true ->
      call_client (ev_call ev) = Some cl ->
      j = 0%nat /\ client_id cl = created st /\
      smtp_server (self st') = Some cl.
Proof.
  intros [Hh Ht] H. apply send_notification_inv in H as (r & H & _).
  apply try_body_clients in H
    as (evs & Htr & [(Hcr & Hs & Hev)|(Hcr & Hsrv & Hev & Hfirst)]).
  - split.
    + split; rewrite Hcr; [by rewrite Hs|].
      rewrite Htr. apply Forall_app. split; [done|].
      eapply Forall_impl; [exact Hev|]. cbn. intros ev [_ Hcl] cl Hcl'.
      by apply Hh, Hcl.
    + exists evs. split; [done|]. intros j ev cl Hj Hc _.
      apply list_elem_of_lookup_2 in Hj. rewrite Forall_forall in Hev.
      destruct (Hev _ Hj) as [Hn _]. congruence.
  - split.
    + split; rewrite Hcr.
      * intros cl Hcl. rewrite Hsrv in Hcl. injection Hcl as <-. cbn. lia.
      * rewrite Htr. apply Forall_app. split.
        -- eapply Forall_impl; [exact Ht|]. cbn. intros ev Hcl cl Hcl'.
           specialize (Hcl _ Hcl'). lia.
        -- eapply Forall_impl; [exact Hev|]. cbn. intros ev Hcl cl Hcl'.
           rewrite (Hcl _ Hcl'). cbn. lia.
    + exists evs. split; [done|]. intros j ev cl Hj Hc Hcl.
      split; [by eapply Hfirst|].
      apply list_elem_of_lookup_2 in Hj. rewrite Forall_forall in Hev.
      rewrite (Hev _ Hj _ Hcl). done.
Qed.

Lemma dispatches_connects_first w requests st :
  known_clients st -> connects_first (trace st) ->
  known_clients (dispatches w requests st) /\
  connects_first (trace (dispatches w requests st)).
Proof.
  revert st. induction requests as [|data requests IH]; intros st Hk Hf;
    [done|].
  cbn. destruct (_send_notification w data st) as [res st1] eqn:H. cbn.
  destruct (send_notification_clients _ _ _ _ _ Hk H)
    as (Hk1 & evs & Htr & Hconn).
  apply IH; [done|].
  intros i ev cl Hi Hc Hcl. rewrite Htr in Hi |- *.
  destruct (decide (i < length (trace st))%nat) as [Hlt|Hge].
  - rewrite lookup_app_l in Hi by done.
    rewrite take_app_le by lia. by eapply Hf.
  - rewrite lookup_app_r in Hi by lia.
    destruct (Hconn _ _ _ Hi Hc Hcl) as (Hj & Hid & _).
    assert (i = length (trace st)) as -> by lia.
    rewrite take_app_length. destruct Hk as [_ Hk].
    eapply Forall_impl; [exact Hk|]. cbn. intros ev0 Hev0 Heq.
    specialize (Hev0 _ Heq). lia.
Qed.

(** X10: over any sequence of dispatches on a new provider, every
    [connect] is the first call ever made on its client object: a
    reconnection constructs a new client, and no client that was used
    before, connected or not, is connected again. *)
Theorem connect_is_first_call_on_client w requests i ev cl :
  trace (dispatches w requests init_state) !! i = Some ev ->
  is_connect (ev_call ev) = true ->
  call_client (ev_call ev) = Some cl ->
  Forall (fun ev0 => call_client (ev_call ev0) <> Some cl)
    (take i (trace (dispatches w requests init_state))).
Proof.
  assert (known_clients init_state) as Hk.
  { split; [done|]. constructor. }
  assert (connects_first (trace init_state)) as Hf.
  { intros j ev0 cl0 Hj. done. }
  destruct (dispatches_connects_first w requests init_state Hk Hf) as [_ H].
  apply H.
Qed.

Lemma connect_is_first_call_on_client_witness :
  Forall (fun ev0 => call_client (ev_call ev0) <> Some (mk_client 1 false))
    (take 3 (trace (dispatches quiet_world
                      [merged_request; other_host_request] init_state))).
Proof.
  exact (connect_is_first_call_on_client quiet_world
           [merged_request; other_host_request] 3
           (mk_event (Connect (mk_client 1 false) (VStr "mail.example.org")
                        (VInt 25)) None)
           (mk_client 1 false) eq_refl eq_refl eq_refl).
Defined.

(** ** Authentication *)

(** X11: authentication follows the request.  [_connect_to_server] calls
    [login] only when [username] is truthy, as its last call, on the new
    client and with the [username] and [password] of the request; when it
    returns it has called [login] once if [username] is truthy and not at
    all otherwise. *)
Theorem login_uses_request_credentials w data st r st' :
  _connect_to_server w data st = (r, st') ->
  (forall ev, ev ∈ emitted st st' -> is_login (ev_call ev) = true ->
     truthy (dict_get data "username") = true /\
     ev_call ev = Login (next_client st data) (dict_get data "username")
                    (dict_get data "password") /\
     is_Some (data !! "password") /\
     last (emitted st st') = Some ev) /\
  (r = Ok tt ->
   count_calls is_login (emitted st st') =
     if truthy (dict_get data "username") then 1%nat else 0%nat).
Proof.
  intros H. unfold _connect_to_server in H. inv_run.
  all: repeat match goal with
       | H1 : ?m !! ?k = Some ?x, H2 : ?m !! ?k = Some ?y |- _ =>
           assert (y = x) by congruence; subst y; clear H2
       end.
  all: erewrite !(emitted_app _ _ _)
         by (cbn [trace]; rewrite <- ?app_assoc; cbn [app];
             first [reflexivity | symmetry; apply app_nil_r]).
  all: unfold next_client, dict_get in *;
       repeat match goal with
       | H : _ !! _ = Some _ |- _ => rewrite H in *
       | H : _ !! _ = None |- _ => rewrite H in *
       end; cbn [from_option id] in *;
       repeat match goal with
       | H : truthy _ = _ |- _ => rewrite H in *
       end.
  all: split;
       [ intros ev Hin Hl; in_cases Hin; cbn in Hl; try discriminate;
         split_and!; by eauto
       | first [discriminate | intros _; reflexivity] ].
Qed.

Lemma login_uses_request_credentials_witness :
  count_calls is_login
    (emitted init_state
       (_connect_to_server quiet_world anonymous_request init_state).2) =
  0%nat.
Proof.
  exact (proj2 (login_uses_request_credentials quiet_world anonymous_request
                  init_state _ _ eq_refl) eq_refl).
Defined.

(** ** A connection attempt that fails *)

Lemma connected_for_handle s s' data :
  configuration s' = configuration s -> is_Some (smtp_server s') ->
  connected_for s data = true -> connected_for s' data = true.
Proof.
  unfold connected_for, must_connect. intros -> [cl ->].
  destruct (_get_configuration data); [|done].
  destruct (configuration s); [|done]. by destruct (smtp_server s).
Qed.

(** X12: when [connect] fails, it was the only call of the dispatch, and
    the provider is left with the stored identity it had and with the new,
    unconnected client as its handle.  A following dispatch for the
    identity that was served before the attempt therefore makes no session
    call: its message is handed to the client whose [connect] failed. *)
Theorem failed_connect_replaces_handle w data st res st' c e :
  _send_notification w data st = (res, st') ->
  last (emitted st st') = Some (mk_event c (Some e)) ->
  is_connect c = true ->
  emitted st st' = [mk_event c (Some e)] /\
  call_client c = Some (next_client st data) /\
  smtp_server (self st') = Some (next_client st data) /\
  configuration (self st') = configuration (self st) /\
  forall data0 res2 st2,
    connected_for (self st) data0 = true ->
    _send_notification w data0 st' = (res2, st2) ->
    self st2 = self st' /\
    Forall (fun ev => is_session_call (ev_call ev) = false)
      (emitted st' st2) /\
    (forall ev, ev ∈ emitted st' st2 -> is_send (ev_call ev) = true ->
       call_client (ev_call ev) = Some (next_client st data)).
Proof.
  intros H Hl Hc. apply send_notification_inv in H as (r & H & _).
  pose proof (try_body_spec _ _ _ _ _ H)
    as (evs & Ht & _ & _ & _ & _ & _ & _ & Hf & _).
  apply try_body_clients in H as (evs' & Ht' & Hcase).
  assert (evs' = evs) as -> by (rewrite Ht in Ht'; by apply app_inv_head in Ht').
  rewrite (emitted_app _ _ _ Ht) in Hl |- *.
  specialize (Hf _ _ Hl). rewrite Hc in Hf.
  pose proof (last_elem_of _ _ Hl) as Hin.
  destruct Hcase as [(_ & _ & Hev)|(_ & Hsrv & Hev & Hfirst)].
  { rewrite Forall_forall in Hev. destruct (Hev _ Hin) as [Hn _].
    cbn in Hn. congruence. }
  assert (evs = [mk_event c (Some e)]) as ->.
  { apply last_Some in Hl as [l' ->].
    assert (length l' = 0%nat) as Hlen.
    { apply (Hfirst _ (mk_event c (Some e))); [|done].
      by rewrite lookup_app_r, Nat.sub_diag by lia. }
    by destruct l'. }
  assert (call_client c = Some (next_client st data)) as Hcl.
  { rewrite Forall_forall in Hev. specialize (Hev _ Hin). cbn in Hev.
    destruct c; try discriminate. cbn. f_equal. by apply Hev. }
  split_and!; try done.
  intros data0 res2 st2 Hconn H2.
  assert (connected_for (self st') data0 = true) as Hconn'.
  { eapply connected_for_handle; [exact Hf| |exact Hconn].
    rewrite Hsrv. by eexists. }
  destruct (reuse_spec _ _ _ _ _ Hconn' H2) as [Hself Hquiet].
  split_and!; try done.
  apply send_notification_inv in H2 as (r2 & H2 & _).
  apply try_body_spec in H2
    as (evs2 & Ht2 & _ & _ & _ & _ & _ & _ & _ & Hs & _).
  rewrite (emitted_app _ _ _ Ht2). intros ev Hin2 Hsend.
  destruct (Hs _ Hin2 Hsend) as (_ & srv & em & -> & Hsrv2). cbn.
  by rewrite <- Hsrv2, Hself.
Qed.

Lemma failed_connect_replaces_handle_witness :
  smtp_server
    (self (dispatches (unreachable_world "mail.example.org")
             [merged_request; other_host_request] init_state)) =
    Some (mk_client 1 false) /\
  Forall (fun ev => is_session_call (ev_call ev) = false)
    (emitted
       (dispatches (unreachable_world "mail.example.org")
          [merged_request; other_host_request] init_state)
       (dispatches (unreachable_world "mail.example.org")
          [merged_request; other_host_request; merged_request] init_state)).
Proof.
  let st1 := eval vm_compute in
    (dispatches (unreachable_world "mail.example.org") [merged_request]
       init_state) in
  let run2 := eval vm_compute in
    (_send_notification (unreachable_world "mail.example.org")
       other_host_request st1) in
  match run2 with
  | (?res2, ?st2) =>
    let run3 := eval vm_compute in
      (_send_notification (unreachable_world "mail.example.org")
         merged_request st2) in
    match run3 with
    | (?res3, ?st3) =>
      assert (_send_notification (unreachable_world "mail.example.org")
                other_host_request st1 = (res2, st2)) as H2
        by (vm_compute; reflexivity);
      assert (_send_notification (unreachable_world "mail.example.org")
                merged_request st2 = (res3, st3)) as H3
        by (vm_compute; reflexivity);
      assert (last (emitted st1 st2) =
              Some (mk_event
                      (Connect (mk_client 1 false) (VStr "mail.example.org")
                         (VInt 25))
                      (Some (mk_exn ConnectionRefusedError
                               "[Errno 111] Connection refused")))) as Hl
        by (vm_compute; reflexivity);
      assert (connected_for (self st1) merged_request = true) as Hc
        by (vm_compute; reflexivity);
      pose proof (failed_connect_replaces_handle _ _ _ _ _ _ _ H2 Hl eq_refl)
        as (_ & _ & Hsrv & _ & Hnext);
      destruct (Hnext merged_request _ _ Hc H3) as (_ & Hquiet & _)
    end
  end.
  vm_compute in Hsrv, Hquiet. vm_compute. split; [exact Hsrv|exact Hquiet].
Defined.

(** ** Defaults and required fields *)






(** ** The stored handle *)

(** X14: every transport call of a dispatch is made on the handle the
    provider stores when the dispatch ends: a dispatch never talks to two
    client objects, and after a reconnection nothing is sent on the handle
    that was stored before. *)
Theorem dispatch_uses_stored_handle w data st res st' ev cl :
  _send_notification w data st = (res, st') ->
  ev ∈ emitted st st' -> call_client (ev_call ev) = Some cl ->
  smtp_server (self st') = Some cl.
Proof.
  intros H Hin Hcl. apply send_notification_inv in H as (r & H & _).
  apply try_body_clients in H
    as (evs & Ht & [(_ & Hs & Hev)|(_ & Hsrv & Hev & _)]);
    rewrite (emitted_app _ _ _ Ht) in Hin; rewrite Forall_forall in Hev.
  - rewrite Hs. by apply (Hev _ Hin).
  - by rewrite (Hev _ Hin _ Hcl).
Qed.

Lemma dispatch_uses_stored_handle_witness :
  smtp_server
    (self (_send_notification quiet_world other_host_request
             (dispatches quiet_world [merged_request] init_state)).2) =
  Some (mk_client 1 false).
Proof.
  apply (dispatch_uses_stored_handle quiet_world other_host_request
           (dispatches quiet_world [merged_request] init_state) _ _
           (mk_event (Connect (mk_client 1 false) (VStr "mail.example.org")
                        (VInt 25)) None)
           (mk_client 1 false) eq_refl);
    [|reflexivity].
  vm_compute. apply elem_of_cons. by left.
Defined.

Lemma send_notification_handle w data st res st' :
  (is_Some (configuration (self st)) -> is_Some (smtp_server (self st))) ->
  _send_notification w data st = (res, st') ->
  is_Some (configuration (self st')) -> is_Some (smtp_server (self st')).
Proof.
  intros Hinv H. apply send_notification_inv in H as (r & H & _).
  apply try_body_clients in H
    as (evs & _ & [(_ & Hs & _)|(_ & Hsrv & _)]).
  - by rewrite Hs.
  - intros _. rewrite Hsrv. by eexists.
Qed.

(** X15: over any sequence of dispatches on a new provider, a stored
    identity always comes with a stored handle.  The test [not
    self.smtp_server] of [_send_notification] therefore never decides: the
    session is re-established exactly when no identity is stored or the
    stored identity differs from that of the request. *)
Theorem identity_implies_handle w requests cfg :
  (is_Some (configuration (self (dispatches w requests init_state))) ->
   is_Some (smtp_server (self (dispatches w requests init_state)))) /\
  must_connect (self (dispatches w requests init_state)) cfg =
    match configuration (self (dispatches w requests init_state)) with
    | None => true
    | Some stored => negb (configuration_eqb stored cfg)
    end.
Proof.
  assert (forall st,
            (is_Some (configuration (self st)) ->
             is_Some (smtp_server (self st))) ->
            is_Some (configuration (self (dispatches w requests st))) ->
            is_Some (smtp_server (self (dispatches w requests st)))) as Hinv.
  { induction requests as [|data requests IH]; intros st Hst; [done|].
    cbn. destruct (_send_notification w data st) as [res st1] eqn:H. cbn.
    apply IH. by eapply send_notification_handle. }
  assert (is_Some (configuration (self (dispatches w requests init_state))) ->
          is_Some (smtp_server (self (dispatches w requests init_state))))
    as Hh.
  { apply Hinv. cbn. by intros [? ?]. }
  split; [done|]. unfold must_connect.
  destruct (configuration (self (dispatches w requests init_state)))
    as [stored|]; [|done].
  by destruct Hh as [cl ->].
Qed.
